(** * Page content extraction: DOM snapshot extractor and Markdown renderer

    A shallow embedding of the two page scripts of the repository:
    the DOM snapshot extractor ([extractElement] and its driver) and the
    HTML to Markdown converter ([htmlToMarkdown], [getTextContent],
    [convertTable] and its driver), together with the properties of the
    written specification that concern them. *)

From Stdlib Require Import List String Ascii Bool Arith NArith ZArith QArith Lia.
From Stdlib Require Import DecimalString Permutation.
Import ListNotations.

Set Warnings "-register-all".

Local Open Scope string_scope.
Local Open Scope nat_scope.

(* ================================================================= *)
(** ** JavaScript strings and arrays *)

(** Strings are sequences of 8-bit code units (the Latin-1 range of the
    UTF-16 code units of a JavaScript string). *)
Module JsString.

(** The line feed character, written [\n] in the scripts. *)
Definition LF : ascii := ascii_of_nat 10.
Definition nl : string := String LF EmptyString.

(** White space and line terminators removed by [String.prototype.trim]:
    TAB, LF, VT, FF, CR, SP and NBSP. *)
Definition isWhiteSpace (c : ascii) : bool :=
  let n := nat_of_ascii c in
  ((9 <=? n) && (n <=? 13)) || (n =? 32) || (n =? 160).

Fixpoint trimStart (s : string) : string :=
  match s with
  | EmptyString => EmptyString
  | String c s' => if isWhiteSpace c then trimStart s' else s
  end.

Fixpoint trimEnd (s : string) : string :=
  match s with
  | EmptyString => EmptyString
  | String c s' =>
      match trimEnd s' with
      | EmptyString => if isWhiteSpace c then EmptyString else String c EmptyString
      | t => String c t
      end
  end.

(** [s.trim()] *)
Definition trim (s : string) : string := trimEnd (trimStart s).

(** [c.toLowerCase()] on one code unit: A-Z and the upper-case letters
    of Latin-1 (all of 0xC0-0xDE but the multiplication sign 0xD7). *)
Definition lowerChar (c : ascii) : ascii :=
  let n := nat_of_ascii c in
  if ((65 <=? n) && (n <=? 90))
     || ((192 <=? n) && (n <=? 222) && negb (n =? 215))
  then ascii_of_nat (n + 32) else c.

(** [s.toLowerCase()] *)
Fixpoint toLowerCase (s : string) : string :=
  match s with
  | EmptyString => EmptyString
  | String c s' => String (lowerChar c) (toLowerCase s')
  end.

(** [arr.includes(s)] for an array of strings. *)
Definition includes (arr : list string) (s : string) : bool :=
  existsb (String.eqb s) arr.

(** [arr.join(sep)] *)
Definition join (sep : string) (arr : list string) : string :=
  String.concat sep arr.

(** Truthiness of a string: the empty string is the only falsy one. *)
Definition truthy (s : string) : bool :=
  match s with EmptyString => false | _ => true end.

(** [s.split(c)] for a one-character separator; the result is never
    empty ([''.split(c)] is [['']]). *)
Fixpoint split (sep : ascii) (s : string) : list string :=
  match s with
  | EmptyString => [EmptyString]
  | String c s' =>
      if Ascii.eqb c sep then EmptyString :: split sep s'
      else match split sep s' with
           | [] => [String c EmptyString]
           | w :: ws => String c w :: ws
           end
  end.

(** The string that [String(n)] and [n + ''] give for a non-negative
    integer [n]: its decimal digits. *)
Definition ofNat (n : nat) : string :=
  NilEmpty.string_of_uint (Nat.to_uint n).

(** The replacement text of a maximal run of [run] line feeds under
    [s.replace(/\n{3,}/g, '\n\n')]. *)
Definition emitRun (run : nat) : string :=
  if 3 <=? run then nl ++ nl
  else String.concat "" (repeat nl run).

(** [collapse s run] is [s.replace(/\n{3,}/g, '\n\n')] for a string
    that follows [run] pending line feeds. *)
Fixpoint collapse (s : string) (run : nat) : string :=
  match s with
  | EmptyString => emitRun run
  | String c s' =>
      if Ascii.eqb c LF then collapse s' (S run)
      else emitRun run ++ String c (collapse s' 0)
  end.

Definition collapseNewlines (s : string) : string := collapse s 0.

(** [arr.forEach((x, index) => ...)] where the callback updates a
    variable of the enclosing scope, threaded here as the state [s];
    [index] is the position of [x] in [arr]. *)
Fixpoint forEachFrom {A St : Type} (f : St -> A -> nat -> St)
         (arr : list A) (index : nat) (s : St) : St :=
  match arr with
  | [] => s
  | x :: arr' => forEachFrom f arr' (S index) (f s x index)
  end.

Definition forEach {A St : Type} (f : St -> A -> nat -> St)
           (arr : list A) (s : St) : St :=
  forEachFrom f arr 0 s.

(** The strings of a list appended in order, with nothing between. *)
Definition concatAll (l : list string) : string :=
  fold_right String.append "" l.

(** A list with the position of each item, counted from 0. *)
Definition indexed {A : Type} (l : list A) : list (nat * A) :=
  combine (seq 0 (List.length l)) l.

(** A string that does not start with white space. *)
Definition firstClean (s : string) : bool :=
  match s with
  | EmptyString => true
  | String c _ => negb (isWhiteSpace c)
  end.

(** A string that starts with three line feeds, and a string that holds
    three line feeds in a row somewhere. *)
Definition startsWithTriple (s : string) : bool :=
  match s with
  | String a (String b (String c _)) =>
      Ascii.eqb a LF && Ascii.eqb b LF && Ascii.eqb c LF
  | _ => false
  end.

Fixpoint containsTriple (s : string) : bool :=
  match s with
  | EmptyString => false
  | String _ s' => startsWithTriple s || containsTriple s'
  end.

(** The string [s] with [ins] put after each of its line feeds. *)
Fixpoint afterEachLF (ins s : string) : string :=
  match s with
  | EmptyString => EmptyString
  | String c s' =>
      if Ascii.eqb c LF then String c (ins ++ afterEachLF ins s')
      else String c (afterEachLF ins s')
  end.

End JsString.

(* ================================================================= *)
(** ** The document tree *)

(** The part of the DOM that the two scripts read: element nodes with
    their tag name, attributes, computed style and bounding rectangle,
    text nodes, and the other character-data nodes (comments), which the
    scripts never look into. *)
Module Dom.
Import JsString.

(** The three properties read from [window.getComputedStyle(element)]. *)
Record CSSStyleDeclaration : Type := mkStyle {
  display : string;
  visibility : string;
  opacity : string
}.

(** [element.getBoundingClientRect()]; every finite double is a
    rational number. *)
Record DOMRect : Type := mkRect {
  x : Q;
  y : Q;
  width : Q;
  height : Q
}.

(** One entry of [element.attributes]. *)
Record Attr : Type := mkAttr {
  name : string;
  value : string
}.

Record ElementData : Type := mkElementData {
  tagName : string;
  attributes : list Attr;
  computedStyle : CSSStyleDeclaration;
  boundingClientRect : DOMRect
}.

Inductive Node : Type :=
| Element (e : ElementData) (childNodes : list Node)
| Text (data : string)
| Comment (data : string).

(** [node.nodeType === Node.ELEMENT_NODE] and [=== Node.TEXT_NODE]. *)
Definition isElement (n : Node) : bool :=
  match n with Element _ _ => true | _ => false end.

Definition isText (n : Node) : bool :=
  match n with Text _ => true | _ => false end.

(** [node.childNodes]: every child, of any node type. *)
Definition childNodesOf (n : Node) : list Node :=
  match n with Element _ cs => cs | _ => [] end.

(** [element.children]: the children that are elements, in order. *)
Definition children (n : Node) : list Node :=
  filter isElement (childNodesOf n).

(** [element.tagName.toLowerCase()]; a node that is no element has no
    [tagName], which [htmlToMarkdown] replaces by the empty string. *)
Definition lowerTag (n : Node) : string :=
  match n with
  | Element e _ => toLowerCase (tagName e)
  | _ => ""
  end.

(** [node.textContent]: the data of a text or comment node; for an
    element, the text of its descendants without that of comments. *)
Fixpoint textContent (n : Node) : string :=
  match n with
  | Element _ cs =>
      String.concat ""
        (map (fun c => match c with
                       | Comment _ => ""
                       | _ => textContent c
                       end) cs)
  | Text d => d
  | Comment d => d
  end.

(** [element.getAttribute(name)], [None] for JavaScript's [null]. *)
Definition getAttribute (n : Node) (nm : string) : option string :=
  match n with
  | Element e _ =>
      option_map value (find (fun a => String.eqb (name a) nm) (attributes e))
  | _ => None
  end.

(** The selectors the scripts use: a type selector (['tr']), an
    attribute selector (['[role="main"]']) and a selector list
    (['th, td']). *)
Inductive Selector : Type :=
| SelType (tag : string)
| SelAttr (nm val : string)
| SelList (s1 s2 : Selector).

Fixpoint matches (sel : Selector) (n : Node) : bool :=
  match sel with
  | SelType tag => isElement n && String.eqb (lowerTag n) tag
  | SelAttr nm val =>
      match getAttribute n nm with
      | Some v => String.eqb v val
      | None => false
      end
  | SelList s1 s2 => matches s1 n || matches s2 n
  end.

(** The descendants of a node in tree order, the node itself left out. *)
Fixpoint descendants (n : Node) : list Node :=
  match n with
  | Element _ cs => flat_map (fun c => c :: descendants c) cs
  | _ => []
  end.

(** [element.querySelectorAll(sel)] and [element.querySelector(sel)]. *)
Definition querySelectorAll (sel : Selector) (n : Node) : list Node :=
  filter (matches sel) (descendants n).

Definition querySelector (sel : Selector) (n : Node) : option Node :=
  hd_error (querySelectorAll sel n).

(** A node paired with the tag name of its [parentElement] ([None]
    when the parent is no element), for the node and its descendants
    in tree order. *)
Fixpoint withParent (parent : option string) (n : Node)
  : list (option string * Node) :=
  (parent, n) ::
  match n with
  | Element e cs => flat_map (withParent (Some (tagName e))) cs
  | _ => []
  end.

(** What the scripts read of [document] and [window.location]. *)
Record Document : Type := mkDocument {
  title : string;
  href : string;
  documentElement : option Node
}.

(** [document.querySelector(sel)], with the parent's tag name. *)
Definition documentQuerySelector (sel : Selector) (d : Document)
  : option (option string * Node) :=
  match documentElement d with
  | Some root => find (fun pn => matches sel (snd pn)) (withParent None root)
  | None => None
  end.

(** [document.body]: the first child of the [html] root element that
    is a [body] or a [frameset] element. *)
Definition body (d : Document) : option (option string * Node) :=
  match documentElement d with
  | Some (Element e cs as root) =>
      if String.eqb (lowerTag root) "html" then
        option_map (fun b => (Some (tagName e), b))
          (find (fun c => isElement c &&
                          (String.eqb (lowerTag c) "body"
                           || String.eqb (lowerTag c) "frameset")) cs)
      else None
  | _ => None
  end.

(** Induction over the tree, with the hypothesis on every child. *)
Section NodeInd.
Variable P : Node -> Prop.
Hypothesis HElement :
    forall e cs, Forall P cs -> P (Element e cs).
Hypothesis HText : forall d, P (Text d).
Hypothesis HComment : forall d, P (Comment d).

Fixpoint Node_tree_ind (n : Node) : P n :=
    match n with
    | Element e cs =>
        HElement e cs
          ((fix go (l : list Node) : Forall P l :=
              match l with
              | [] => Forall_nil P
              | c :: l' => Forall_cons c (Node_tree_ind c) (go l')
              end) cs)
    | Text d => HText d
    | Comment d => HComment d
    end.
End NodeInd.

(** The number of levels of a tree: 0 for a text or comment node. *)
Fixpoint nesting (n : Node) : nat :=
  match n with
  | Element _ cs => S (fold_right (fun c acc => Nat.max (nesting c) acc) 0 cs)
  | _ => 0
  end.

End Dom.

(* ================================================================= *)
(** ** The DOM snapshot extractor *)

Module Snapshot.
Import JsString Dom.

(** [node.bounding_box] *)
Record BoundingBox : Type := mkBox {
  x : Q;
  y : Q;
  width : Q;
  height : Q
}.

(** The object literal that [extractElement] builds; [None] stands for
    the [null] of [text_content] and [bounding_box], and [attributes]
    lists the own properties of the attribute object in the order in
    which the object lists them. *)
Inductive ElementNode : Type := mkElementNode {
  tag_name : string;
  attributes : list (string * string);
  text_content : option string;
  children : list ElementNode;
  is_visible : bool;
  is_interactive : bool;
  bounding_box : option BoundingBox
}.

(** The values handed to [JSON.stringify]. *)
Inductive JsValue : Type :=
| JsNull
| JsBool (b : bool)
| JsNumber (q : Q)
| JsStr (s : string)
| JsArray (items : list JsValue)
| JsObject (props : list (string * JsValue)).

(** [a > b] on numbers. *)
Definition gt (a b : Q) : bool := negb (Qle_bool a b).

(** [isVisible(element)]; [extractElement] never passes it a missing
    element, the case of its first line. *)
Definition isVisible (element : ElementData) : bool :=
  let style := computedStyle element in
  if String.eqb (display style) "none"
     || String.eqb (visibility style) "hidden"
     || String.eqb (opacity style) "0"
  then false
  else
    let rect := boundingClientRect element in
    gt (Dom.width rect) 0 && gt (Dom.height rect) 0.

(** The attribute object is the list of its own properties in the
    order in which [JSON.stringify] and [Object.keys] list them: the
    array-index keys first, in ascending numeric order, then the other
    keys in the order of their creation. *)

(** A decimal digit, and the number that a string of digits writes. *)
Definition isDigit (c : ascii) : bool :=
  let n := nat_of_ascii c in (48 <=? n) && (n <=? 57).

Fixpoint digitsValue (s : string) (acc : N) : option N :=
  match s with
  | EmptyString => Some acc
  | String c s' =>
      if isDigit c
      then digitsValue s' (acc * 10 + N.of_nat (nat_of_ascii c - 48))%N
      else None
  end.

(** The array index that a property key writes, if it writes one: the
    key is the decimal form, without a leading zero, of an integer from
    0 to 2^32 - 2. *)
Definition arrayIndex (key : string) : option N :=
  match key with
  | EmptyString => None
  | String c rest =>
      if Ascii.eqb c "0" && negb (String.eqb rest "") then None
      else
        match digitsValue key 0%N with
        | Some v => if (v <=? 4294967294)%N then Some v else None
        | None => None
        end
  end.

(** Whether the object has an own property of that name. *)
Definition hasOwn (obj : list (string * string)) (key : string) : bool :=
  existsb (fun kv => String.eqb (fst kv) key) obj.

(** The new value of an own property, which keeps its place. *)
Definition replaceValue (obj : list (string * string)) (key val : string)
  : list (string * string) :=
  map (fun kv => if String.eqb (fst kv) key then (fst kv, val) else kv) obj.

(** A new property with an array-index key, put before the first
    property that has a greater index or has no index. *)
Fixpoint insertIndex (obj : list (string * string)) (idx : N)
         (kv : string * string) : list (string * string) :=
  match obj with
  | [] => [kv]
  | p :: obj' =>
      match arrayIndex (fst p) with
      | Some i => if (i <? idx)%N then p :: insertIndex obj' idx kv
                  else kv :: p :: obj'
      | None => kv :: p :: obj'
      end
  end.

(** A new own property: among the array indices, or last. *)
Definition addProperty (obj : list (string * string)) (key val : string)
  : list (string * string) :=
  match arrayIndex key with
  | Some idx => insertIndex obj idx (key, val)
  | None => (obj ++ [(key, val)])%list
  end.

(** [obj[key] = val] for a string [val] on an object made by [{}].
    The key [__proto__] reaches the setter inherited from
    [Object.prototype], which ignores a value that is no object: no
    property is made.  An existing own property takes the new value;
    any other key, the inherited names such as [constructor] too,
    becomes a new own property. *)
Definition setProperty (obj : list (string * string)) (key val : string)
  : list (string * string) :=
  if String.eqb key "__proto__" then obj
  else if hasOwn obj key then replaceValue obj key val
  else addProperty obj key val.

(** The tags that [extractElement] skips. *)
Definition skippedTags : list string :=
  ["script"; "style"; "noscript"; "meta"; "link"].

(** The direct text of an element: its text-node children, each one
    trimmed, the empty ones dropped, joined by one space. *)
Definition directText (childNodes : list Node) : string :=
  join " "
    (filter (fun t => 0 <? String.length t)
       (map (fun n => trim (textContent n))
          (filter isText childNodes))).

(** [extractElement(element, depth, maxDepth)], [None] for [null].
    The loop over [element.children] runs over [childNodes] and takes
    the element nodes; the function is only ever applied to elements. *)
Fixpoint extractElement (element : Node) (depth maxDepth : nat)
  : option ElementNode :=
  if maxDepth <? depth then None
  else
    match element with
    | Element e childNodes =>
        let tagName := toLowerCase (Dom.tagName e) in
        if includes skippedTags tagName then None
        else
          let visible := isVisible e in
          let attrs :=
            fold_left (fun obj attr => setProperty obj (name attr) (value attr))
              (Dom.attributes e) [] in
          let box :=
            if visible then
              let rect := boundingClientRect e in
              Some {| x := Dom.x rect; y := Dom.y rect;
                      width := Dom.width rect; height := Dom.height rect |}
            else None in
          let textContent := directText childNodes in
          let text := if truthy textContent then Some textContent else None in
          let kids :=
            fold_left
              (fun acc child =>
                 match child with
                 | Element _ _ =>
                     match extractElement child (depth + 1) maxDepth with
                     | Some childNode => (acc ++ [childNode])%list
                     | None => acc
                     end
                 | _ => acc
                 end)
              childNodes [] in
          Some {| tag_name := tagName;
                  attributes := attrs;
                  text_content := text;
                  children := kids;
                  is_visible := visible;
                  is_interactive := false;
                  bounding_box := box |}
    | _ => None
    end.

(** The node object as a JavaScript value. *)
Fixpoint toValue (n : ElementNode) : JsValue :=
  JsObject
    [ ("tag_name", JsStr (tag_name n));
      ("attributes",
        JsObject (map (fun kv => (fst kv, JsStr (snd kv))) (attributes n)));
      ("text_content",
        match text_content n with Some t => JsStr t | None => JsNull end);
      ("children", JsArray (map toValue (children n)));
      ("is_visible", JsBool (is_visible n));
      ("is_interactive", JsBool (is_interactive n));
      ("bounding_box",
        match bounding_box n with
        | Some b =>
            JsObject [ ("x", JsNumber (x b)); ("y", JsNumber (y b));
                       ("width", JsNumber (width b));
                       ("height", JsNumber (height b)) ]
        | None => JsNull
        end) ].

(** The default of the [maxDepth] parameter. *)
Definition defaultMaxDepth : nat := 10.

(** The body of the script: the value that is serialised. *)
Definition extractDom (document : Document) : JsValue :=
  match Dom.body document with
  | None =>
      JsObject [ ("tag_name", JsStr "body");
                 ("attributes", JsObject []);
                 ("children", JsArray []);
                 ("is_visible", JsBool false) ]
  | Some (_, b) =>
      match extractElement b 0 defaultMaxDepth with
      | Some n => toValue n
      | None => JsNull
      end
  end.

(** *** Notions of the specification *)

(** What one child contributes to [node.children]: its node, unless
    [extractElement] gives [null] for it. *)
Definition childResult (depth maxDepth : nat) (child : Node) : list ElementNode :=
  match extractElement child depth maxDepth with
  | Some childNode => [childNode]
  | None => []
  end.

(** The nodes of an output tree at a given depth below its root. *)
Fixpoint nodesAt (n : ElementNode) (d : nat) {struct d} : list ElementNode :=
  match d with
  | 0 => [n]
  | S d' => flat_map (fun c => nodesAt c d') (children n)
  end.

(** The depth of an output tree: the greatest depth of a node in it. *)
Fixpoint outputDepth (n : ElementNode) : nat :=
  fold_right (fun c acc => Nat.max (S (outputDepth c)) acc) 0 (children n).

(** The depth of the element tree below a node. *)
Fixpoint treeDepth (n : Node) : nat :=
  match n with
  | Element _ cs =>
      fold_right (fun c acc =>
                    if isElement c then Nat.max (S (treeDepth c)) acc else acc)
                 0 cs
  | _ => 0
  end.

(** An element that [extractElement] does not skip by its tag. *)
Definition isContent (n : Node) : bool :=
  isElement n && negb (includes skippedTags (lowerTag n)).

(** The depth of the element tree once the subtrees of the skipped
    tags are left out. *)
Fixpoint contentDepth (n : Node) : nat :=
  match n with
  | Element _ cs =>
      fold_right (fun c acc =>
                    if isContent c then Nat.max (S (contentDepth c)) acc else acc)
                 0 cs
  | _ => 0
  end.

(** No element below [n] has a skipped tag. *)
Definition skipFree (n : Node) : bool :=
  forallb (fun c => negb (isElement c && includes skippedTags (lowerTag c)))
          (descendants n).

(** An element with a skipped tag. *)
Definition isSkipped (n : Node) : bool :=
  isElement n && includes skippedTags (lowerTag n).

(** The tree without the elements that have a skipped tag, and so
    without their subtrees. *)
Fixpoint withoutSkipped (n : Node) : Node :=
  match n with
  | Element e cs =>
      Element e
        (flat_map (fun c => if isSkipped c then [] else [withoutSkipped c]) cs)
  | _ => n
  end.

(** The tree without the elements that lie more than [levels] levels
    below its root, and so without their subtrees. *)
Fixpoint cutBelow (levels : nat) (n : Node) {struct n} : Node :=
  match n with
  | Element e cs =>
      Element e
        match levels with
        | 0 => filter (fun c => negb (isElement c)) cs
        | S l => map (cutBelow l) cs
        end
  | _ => n
  end.

(** The elements at depth [d] below [n] that have no skipped tag and
    no ancestor with a skipped tag, [n] included. *)
Fixpoint contentElementsAt (n : Node) (d : nat) {struct d} : list Node :=
  if isContent n then
    match d with
    | 0 => [n]
    | S d' => flat_map (fun c => contentElementsAt c d') (Dom.children n)
    end
  else [].

(** The value of the own property of that name, as
    [Object.getOwnPropertyDescriptor] and [JSON.stringify] read it;
    [None] when the object has no own property of that name (what
    [obj[key]] finds on the prototype is not looked at). *)
Definition getOwnProperty (obj : list (string * string)) (key : string)
  : option string :=
  option_map snd (find (fun kv => String.eqb (fst kv) key) obj).

(** The last attribute of a list that has the given name. *)
Definition lastAttr (attrs : list Attr) (key : string) : option string :=
  option_map value (find (fun a => String.eqb (name a) key) (rev attrs)).

(** A text-node child whose trimmed text is not empty. *)
Definition hasText (n : Node) : bool :=
  isText n && (0 <? String.length (trim (textContent n))).

End Snapshot.

(* ================================================================= *)
(** ** The Markdown renderer *)

Module Markdown.
Import JsString Dom.

(** The tags that [htmlToMarkdown] skips. *)
Definition skippedTags : list string :=
  ["script"; "style"; "noscript"; "meta"; "link"; "iframe"].

(** The tags whose elements [getTextContent] does not enter. *)
Definition textSkippedTags : list string :=
  ["script"; "style"; "noscript"].

(** [getTextContent(element)] *)
Fixpoint getTextContent (element : Node) : string :=
  match element with
  | Text d => trim d
  | Element _ childNodes =>
      trim
        (fold_left
           (fun text child =>
              match child with
              | Text d => text ++ d
              | Element _ _ =>
                  let childTag := lowerTag child in
                  if negb (includes textSkippedTags childTag)
                  then text ++ getTextContent child
                  else text
              | Comment _ => text
              end)
           childNodes "")
  | Comment _ => trim ""
  end.

(** [convertTable(table)] *)
Definition convertTable (table : Node) : string :=
  let rows := querySelectorAll (SelType "tr") table in
  if List.length rows =? 0 then ""
  else
    let hasHeader :=
      match querySelector (SelType "th") table with
      | Some _ => true
      | None => false
      end in
    forEach
      (fun markdown row rowIndex =>
         let cells := querySelectorAll (SelList (SelType "th") (SelType "td")) row in
         let cellTexts := map getTextContent cells in
         let markdown := markdown ++ "| " ++ join " | " cellTexts ++ " |" ++ nl in
         if (rowIndex =? 0) && hasHeader
         then markdown ++ "| " ++ join " | " (map (fun _ => "---") cells)
                       ++ " |" ++ nl
         else markdown)
      rows "".

(** [s || ''] for an attribute value that may be [null]. *)
Definition orEmpty (s : option string) : string :=
  match s with Some v => v | None => "" end.

(** [htmlToMarkdown(element)] for a node; [parentElement] is the tag
    name of [element.parentElement], [None] when there is none.  The
    missing element of the first line is the case of [extractContent]. *)
Fixpoint htmlToMarkdown (parentElement : option string) (element : Node)
  : string :=
  let tagName := lowerTag element in
  if includes skippedTags tagName then ""
  else
    match element with
    | Text d =>
        let text := trim d in
        if truthy text then text ++ " " else ""
    | _ =>
        if (tagName =? "h1")%string then
          nl ++ "# " ++ getTextContent element ++ nl ++ nl
        else if (tagName =? "h2")%string then
          nl ++ "## " ++ getTextContent element ++ nl ++ nl
        else if (tagName =? "h3")%string then
          nl ++ "### " ++ getTextContent element ++ nl ++ nl
        else if (tagName =? "h4")%string then
          nl ++ "#### " ++ getTextContent element ++ nl ++ nl
        else if (tagName =? "h5")%string then
          nl ++ "##### " ++ getTextContent element ++ nl ++ nl
        else if (tagName =? "h6")%string then
          nl ++ "###### " ++ getTextContent element ++ nl ++ nl
        else if (tagName =? "p")%string then
          getTextContent element ++ nl ++ nl
        else if (tagName =? "br")%string then
          nl
        else if (tagName =? "hr")%string then
          nl ++ "---" ++ nl ++ nl
        else if (tagName =? "strong")%string || (tagName =? "b")%string then
          "**" ++ getTextContent element ++ "**"
        else if (tagName =? "em")%string || (tagName =? "i")%string then
          "*" ++ getTextContent element ++ "*"
        else if (tagName =? "code")%string then
          match parentElement with
          | Some parentTag =>
              if (toLowerCase parentTag =? "pre")%string then ""
              else "`" ++ getTextContent element ++ "`"
          | None => "`" ++ getTextContent element ++ "`"
          end
        else if (tagName =? "pre")%string then
          let codeElement := querySelector (SelType "code") element in
          let code :=
            match codeElement with
            | Some c => textContent c
            | None => textContent element
            end in
          nl ++ "```" ++ nl ++ code ++ nl ++ "```" ++ nl ++ nl
        else if (tagName =? "a")%string then
          let href := orEmpty (getAttribute element "href") in
          let linkText := getTextContent element in
          "[" ++ linkText ++ "](" ++ href ++ ")"
        else if (tagName =? "img")%string then
          let src := orEmpty (getAttribute element "src") in
          let alt := orEmpty (getAttribute element "alt") in
          "![" ++ alt ++ "](" ++ src ++ ")"
        else if (tagName =? "ul")%string || (tagName =? "ol")%string then
          let listItems := children element in
          let isOrdered := (tagName =? "ol")%string in
          forEach
            (fun markdown li index =>
               if (lowerTag li =? "li")%string then
                 let prefix :=
                   if isOrdered then ofNat (index + 1) ++ ". " else "- " in
                 markdown ++ prefix ++ getTextContent li ++ nl
               else markdown)
            listItems ""
          ++ nl
        else if (tagName =? "li")%string then
          ""
        else if (tagName =? "blockquote")%string then
          let lines := split LF (getTextContent element) in
          join nl (map (fun line => "> " ++ line) lines) ++ nl ++ nl
        else if (tagName =? "table")%string then
          convertTable element ++ nl ++ nl
        else
          (* div, article, section, main, body and the default case *)
          match element with
          | Element e childNodes =>
              fold_left
                (fun markdown child =>
                   markdown ++ htmlToMarkdown (Some (Dom.tagName e)) child)
                childNodes ""
          | _ => ""
          end
    end.

(** The object the script returns. *)
Record ContentExtractionResult : Type := mkResult {
  title : string;
  content : string;
  url : string
}.

(** [a || b] for the results of two element lookups. *)
Definition orElse {A : Type} (a b : option A) : option A :=
  match a with Some _ => a | None => b end.

(** The body of the script. *)
Definition extractContent (document : Document) : ContentExtractionResult :=
  let contentElement :=
    orElse (documentQuerySelector (SelType "article") document)
      (orElse (documentQuerySelector (SelType "main") document)
         (orElse (documentQuerySelector (SelAttr "role" "main") document)
            (body document))) in
  let content :=
    match contentElement with
    | Some (parent, element) => htmlToMarkdown parent element
    | None => ""
    end in
  let content := trim (collapseNewlines content) in
  {| title := Dom.title document;
     content := content;
     url := href document |}.

(** *** Notions of the specification *)

(** The contribution of one child node to the flat text of its parent:
    the raw data of a text node, the flat text of an element that is
    not a script, style or noscript element, and nothing otherwise. *)
Definition flatPiece (flat : Node -> string) (child : Node) : string :=
  match child with
  | Text d => d
  | Element _ _ =>
      if includes textSkippedTags (lowerTag child) then "" else flat child
  | Comment _ => ""
  end.

(** The flat text of a subtree: for a text node its trimmed data, for
    an element the trimmed concatenation of the pieces of its child
    nodes. *)
Fixpoint flatText (n : Node) : string :=
  match n with
  | Text d => trim d
  | Element _ cs => trim (concatAll (map (flatPiece flatText) cs))
  | Comment _ => ""
  end.

(** The text of the descendant text nodes of a subtree, each one
    trimmed, in tree order, without the subtrees of script, style and
    noscript elements. *)
Fixpoint trimmedTexts (n : Node) : list string :=
  match n with
  | Text d => [trim d]
  | Element _ cs =>
      flat_map (fun c =>
                  if isElement c && includes textSkippedTags (lowerTag c)
                  then [] else trimmedTexts c) cs
  | Comment _ => []
  end.

(** The flat text as the specification words it: the trimmed texts
    joined by single spaces. *)
Definition spaceJoinedText (n : Node) : string :=
  join " " (trimmedTexts n).

(** The cells of a table row, the line of a row and the separator line
    that has one [---] for each cell of the row. *)
Definition rowCells (row : Node) : list Node :=
  querySelectorAll (SelList (SelType "th") (SelType "td")) row.

Definition rowLine (row : Node) : string :=
  "| " ++ join " | " (map getTextContent (rowCells row)) ++ " |" ++ nl.

Definition separatorLine (row : Node) : string :=
  "| " ++ join " | " (map (fun _ => "---") (rowCells row)) ++ " |" ++ nl.

(** The line of the child at position [index] among the element
    children of an ordered list. *)
Definition orderedItemLine (index : nat) (child : Node) : string :=
  if (lowerTag child =? "li")%string
  then ofNat (index + 1) ++ ". " ++ getTextContent child ++ nl
  else "".

(** The tags that have a rule of their own in [htmlToMarkdown]; every
    other tag takes the rule of the containers. *)
Definition ruleTags : list string :=
  skippedTags ++
  ["h1"; "h2"; "h3"; "h4"; "h5"; "h6"; "p"; "br"; "hr"; "strong"; "b";
   "em"; "i"; "code"; "pre"; "a"; "img"; "ul"; "ol"; "li"; "blockquote";
   "table"].

(** The child nodes that [getTextContent] reads: not the comments and
    not the script, style and noscript elements. *)
Definition isRead (child : Node) : bool :=
  match child with
  | Text _ => true
  | Element _ _ => negb (includes textSkippedTags (lowerTag child))
  | Comment _ => false
  end.

(** The tree without the nodes that [getTextContent] does not read. *)
Fixpoint readPart (n : Node) : Node :=
  match n with
  | Element e cs =>
      Element e (flat_map (fun c => if isRead c then [readPart c] else []) cs)
  | _ => n
  end.

(** Whether the parent of a node is a [pre] element. *)
Definition inPre (parentElement : option string) : bool :=
  match parentElement with
  | Some parentTag => (toLowerCase parentTag =? "pre")%string
  | None => false
  end.

(** The line of a child of an unordered list. *)
Definition bulletItemLine (child : Node) : string :=
  if (lowerTag child =? "li")%string
  then "- " ++ getTextContent child ++ nl
  else "".

(** The child nodes that add nothing to the rendering of a container:
    comments, text nodes of white space only, and the elements with a
    skipped tag. *)
Definition isSilent (child : Node) : bool :=
  match child with
  | Text d => negb (truthy (trim d))
  | Element _ _ => includes skippedTags (lowerTag child)
  | Comment _ => true
  end.

(** *** The renderer with its failures

    The same three functions with what can go wrong in them made
    explicit: reading [tagName.toLowerCase()], [children],
    [getAttribute], [querySelector] or [querySelectorAll] from a node
    that is no element throws a [TypeError], and a call of one of the
    three functions that is nested deeper than the call stack allows
    throws a [RangeError].  [fuel] is the number of nested calls that
    the stack still allows. *)

Inductive Error : Type := TypeError | RangeError.

Inductive Outcome (A : Type) : Type :=
| Returned (a : A)
| Thrown (e : Error).

Arguments Returned {A} a.
Arguments Thrown {A} e.

Definition bind {A B : Type} (o : Outcome A) (k : A -> Outcome B) : Outcome B :=
  match o with
  | Returned a => k a
  | Thrown e => Thrown e
  end.

Declare Scope outcome_scope.
Delimit Scope outcome_scope with outcome.
Notation "x <- o ;; k" := (bind o (fun x => k))
  (at level 61, o at next level, right associativity) : outcome_scope.
Local Open Scope outcome_scope.

(** [node.tagName], [None] for [undefined]. *)
Definition tagNameOf (n : Node) : option string :=
  match n with
  | Element e _ => Some (Dom.tagName e)
  | _ => None
  end.

(** [v.toLowerCase()] for a value that may be [undefined]. *)
Definition toLowerCaseOf (v : option string) : Outcome string :=
  match v with
  | Some t => Returned (toLowerCase t)
  | None => Thrown TypeError
  end.

(** [Array.from(node.children)], [node.getAttribute(name)],
    [node.querySelector(sel)] and [node.querySelectorAll(sel)]: only
    an element has them. *)
Definition childrenOf (n : Node) : Outcome (list Node) :=
  match n with
  | Element _ _ => Returned (children n)
  | _ => Thrown TypeError
  end.

Definition getAttributeOf (n : Node) (nm : string) : Outcome (option string) :=
  match n with
  | Element _ _ => Returned (getAttribute n nm)
  | _ => Thrown TypeError
  end.

Definition querySelectorOf (sel : Selector) (n : Node) : Outcome (option Node) :=
  match n with
  | Element _ _ => Returned (querySelector sel n)
  | _ => Thrown TypeError
  end.

Definition querySelectorAllOf (sel : Selector) (n : Node) : Outcome (list Node) :=
  match n with
  | Element _ _ => Returned (querySelectorAll sel n)
  | _ => Thrown TypeError
  end.

(** [arr.map(f)] and [arr.forEach(f)] for a callback that may throw. *)
Fixpoint mapC {A B : Type} (f : A -> Outcome B) (arr : list A)
  : Outcome (list B) :=
  match arr with
  | [] => Returned []
  | x :: arr' => y <- f x ;; ys <- mapC f arr' ;; Returned (y :: ys)
  end.

Fixpoint forEachFromC {A St : Type} (f : St -> A -> nat -> Outcome St)
         (arr : list A) (index : nat) (s : St) : Outcome St :=
  match arr with
  | [] => Returned s
  | x :: arr' => s' <- f s x index ;; forEachFromC f arr' (S index) s'
  end.

Definition forEachC {A St : Type} (f : St -> A -> nat -> Outcome St)
           (arr : list A) (s : St) : Outcome St :=
  forEachFromC f arr 0 s.

(** A [for ... of] loop over child nodes that builds a string. *)
Definition forOfC (step : string -> Node -> Outcome string)
           (nodes : list Node) (start : string) : Outcome string :=
  fold_left (fun acc child => text <- acc ;; step text child)
            nodes (Returned start).

(** [getTextContent(element)] *)
Fixpoint getTextContentC (fuel : nat) (element : Node) : Outcome string :=
  match fuel with
  | 0 => Thrown RangeError
  | S fuel' =>
      if isText element then Returned (trim (textContent element))
      else
        text <- forOfC
                  (fun text child =>
                     if isText child then Returned (text ++ textContent child)
                     else if isElement child then
                       childTag <- toLowerCaseOf (tagNameOf child) ;;
                       if negb (includes textSkippedTags childTag)
                       then t <- getTextContentC fuel' child ;;
                            Returned (text ++ t)
                       else Returned text
                     else Returned text)
                  (childNodesOf element) "" ;;
        Returned (trim text)
  end.

(** [convertTable(table)] *)
Definition convertTableC (fuel : nat) (table : Node) : Outcome string :=
  match fuel with
  | 0 => Thrown RangeError
  | S fuel' =>
      rows <- querySelectorAllOf (SelType "tr") table ;;
      if List.length rows =? 0 then Returned ""
      else
        th <- querySelectorOf (SelType "th") table ;;
        let hasHeader := match th with Some _ => true | None => false end in
        forEachC
          (fun markdown row rowIndex =>
             cells <- querySelectorAllOf
                        (SelList (SelType "th") (SelType "td")) row ;;
             cellTexts <- mapC (getTextContentC fuel') cells ;;
             let markdown :=
               markdown ++ "| " ++ join " | " cellTexts ++ " |" ++ nl in
             Returned
               (if (rowIndex =? 0) && hasHeader
                then markdown ++ "| " ++ join " | " (map (fun _ => "---") cells)
                              ++ " |" ++ nl
                else markdown))
          rows ""
  end.

(** [htmlToMarkdown(element)] for a node. *)
Fixpoint htmlToMarkdownC (fuel : nat) (parentElement : option string)
         (element : Node) : Outcome string :=
  match fuel with
  | 0 => Thrown RangeError
  | S fuel' =>
      let tagName :=
        match tagNameOf element with
        | Some t => toLowerCase t
        | None => ""
        end in
      if includes skippedTags tagName then Returned ""
      else if isText element then
        let text := trim (textContent element) in
        Returned (if truthy text then text ++ " " else "")
      else if (tagName =? "h1")%string then
        text <- getTextContentC fuel' element ;;
        Returned (nl ++ "# " ++ text ++ nl ++ nl)
      else if (tagName =? "h2")%string then
        text <- getTextContentC fuel' element ;;
        Returned (nl ++ "## " ++ text ++ nl ++ nl)
      else if (tagName =? "h3")%string then
        text <- getTextContentC fuel' element ;;
        Returned (nl ++ "### " ++ text ++ nl ++ nl)
      else if (tagName =? "h4")%string then
        text <- getTextContentC fuel' element ;;
        Returned (nl ++ "#### " ++ text ++ nl ++ nl)
      else if (tagName =? "h5")%string then
        text <- getTextContentC fuel' element ;;
        Returned (nl ++ "##### " ++ text ++ nl ++ nl)
      else if (tagName =? "h6")%string then
        text <- getTextContentC fuel' element ;;
        Returned (nl ++ "###### " ++ text ++ nl ++ nl)
      else if (tagName =? "p")%string then
        text <- getTextContentC fuel' element ;;
        Returned (text ++ nl ++ nl)
      else if (tagName =? "br")%string then
        Returned nl
      else if (tagName =? "hr")%string then
        Returned (nl ++ "---" ++ nl ++ nl)
      else if (tagName =? "strong")%string || (tagName =? "b")%string then
        text <- getTextContentC fuel' element ;;
        Returned ("**" ++ text ++ "**")
      else if (tagName =? "em")%string || (tagName =? "i")%string then
        text <- getTextContentC fuel' element ;;
        Returned ("*" ++ text ++ "*")
      else if (tagName =? "code")%string then
        if inPre parentElement then Returned ""
        else
          text <- getTextContentC fuel' element ;;
          Returned ("`" ++ text ++ "`")
      else if (tagName =? "pre")%string then
        codeElement <- querySelectorOf (SelType "code") element ;;
        let code :=
          match codeElement with
          | Some c => textContent c
          | None => textContent element
          end in
        Returned (nl ++ "```" ++ nl ++ code ++ nl ++ "```" ++ nl ++ nl)
      else if (tagName =? "a")%string then
        href <- getAttributeOf element "href" ;;
        linkText <- getTextContentC fuel' element ;;
        Returned ("[" ++ linkText ++ "](" ++ orEmpty href ++ ")")
      else if (tagName =? "img")%string then
        src <- getAttributeOf element "src" ;;
        alt <- getAttributeOf element "alt" ;;
        Returned ("![" ++ orEmpty alt ++ "](" ++ orEmpty src ++ ")")
      else if (tagName =? "ul")%string || (tagName =? "ol")%string then
        listItems <- childrenOf element ;;
        let isOrdered := (tagName =? "ol")%string in
        markdown <-
          forEachC
            (fun markdown li index =>
               liTag <- toLowerCaseOf (tagNameOf li) ;;
               if (liTag =? "li")%string then
                 let prefix :=
                   if isOrdered then ofNat (index + 1) ++ ". " else "- " in
                 text <- getTextContentC fuel' li ;;
                 Returned (markdown ++ prefix ++ text ++ nl)
               else Returned markdown)
            listItems "" ;;
        Returned (markdown ++ nl)
      else if (tagName =? "li")%string then
        Returned ""
      else if (tagName =? "blockquote")%string then
        text <- getTextContentC fuel' element ;;
        let lines := split LF text in
        Returned (join nl (map (fun line => "> " ++ line) lines) ++ nl ++ nl)
      else if (tagName =? "table")%string then
        table <- convertTableC fuel' element ;;
        Returned (table ++ nl ++ nl)
      else
        (* div, article, section, main, body and the default case *)
        forOfC
          (fun markdown child =>
             m <- htmlToMarkdownC fuel' (tagNameOf element) child ;;
             Returned (markdown ++ m))
          (childNodesOf element) ""
  end.

(** The outcome [o] is the value [v], unless the call stack was too
    short, which [short] says, and the outcome is a [RangeError]. *)
Definition within {A : Type} (o : Outcome A) (v : A) (short : Prop) : Prop :=
  o = Returned v \/ (o = Thrown RangeError /\ short).

End Markdown.

(* ================================================================= *)
(** ** Sample documents *)

Module Fixtures.
Import JsString Dom.

(** An element that is displayed and occupies a 10 by 10 rectangle. *)
Definition shown : CSSStyleDeclaration := mkStyle "block" "visible" "1".
Definition square : DOMRect := mkRect 0 0 10 10.

Definition el (tag : string) (attrs : list Attr) (cs : list Node) : Node :=
  Element (mkElementData tag attrs shown square) cs.

(** An element with [display: none] and an empty rectangle. *)
Definition hiddenEl (tag : string) (cs : list Node) : Node :=
  Element (mkElementData tag [] (mkStyle "none" "visible" "1") (mkRect 0 0 0 0)) cs.

(** [<body><script></script></body>] *)
Definition bodyWithScript : Node :=
  el "BODY" [] [el "SCRIPT" [] []].

(** [<body><div><span>hi</span></div><style><b></b></style></body>] with the [div] hidden. *)
Definition bodyMixed : Node :=
  el "BODY" []
    [ hiddenEl "DIV" [hiddenEl "SPAN" [Text "hi"]];
      el "STYLE" [] [el "B" [] []] ].

(** [<body><h1>Title</h1><p>Hello <b>world</b></p></body>] *)
Definition titleAndParagraph : Node :=
  el "BODY" []
    [ el "H1" [] [Text "Title"];
      el "P" [] [Text "Hello "; el "B" [] [Text "world"]] ].

(** [<p>Hello<b>world</b></p>] *)
Definition gluedParagraph : Node :=
  el "P" [] [Text "Hello"; el "B" [] [Text "world"]].

(** [<table></table>] *)
Definition emptyTable : Node := el "TABLE" [] [].

(** [<table><tr><th>a</th><td>b</td></tr><tr><td>c</td></tr></table>] *)
Definition headerCell : Node := el "TH" [] [Text "a"].
Definition headerRow : Node := el "TR" [] [headerCell; el "TD" [] [Text "b"]].
Definition dataRow : Node := el "TR" [] [el "TD" [] [Text "c"]].
Definition headedTable : Node := el "TABLE" [] [headerRow; dataRow].

(** [<ul><li>a</li><li>b</li></ul>] *)
Definition bulletList : Node :=
  el "UL" [] [el "LI" [] [Text "a"]; el "LI" [] [Text "b"]].

(** [<a href="/x">go</a>] and [<a>go</a>] *)
Definition linkWithHref : Node := el "A" [mkAttr "href" "/x"] [Text "go"].
Definition linkWithoutHref : Node := el "A" [] [Text "go"].

(** [<div style="display:none"><span>hi</span></div>] *)
Definition hiddenDiv : Node := hiddenEl "DIV" [hiddenEl "SPAN" [Text "hi"]].

(** [<span>x</span>] *)
Definition spanElement : Node := el "SPAN" [] [Text "x"].

(** A document without a root element. *)
Definition emptyDocument : Document := mkDocument "" "about:blank" None.

(** [<ol><li>a</li><div></div><li>b</li></ol>] *)
Definition listWithDiv : Node :=
  el "OL" [] [el "LI" [] [Text "a"]; el "DIV" [] []; el "LI" [] [Text "b"]].

(** A document whose root is an [html] element with the given children. *)
Definition page (cs : list Node) : Document :=
  mkDocument "title" "about:blank" (Some (el "HTML" [] cs)).

(** The data of an element without attributes, displayed. *)
Definition plainData (tag : string) : ElementData :=
  mkElementData tag [] shown square.

(** The [span] of [bodyMixed] and the children of [bodyMixed]. *)
Definition hiddenSpan : Node := hiddenEl "SPAN" [Text "hi"].
Definition mixedChildren : list Node :=
  [ hiddenEl "DIV" [hiddenEl "SPAN" [Text "hi"]];
    el "STYLE" [] [el "B" [] []] ].

(** An element with a repeated attribute name, and one without. *)
Definition repeatedAttrs : ElementData :=
  mkElementData "DIV"
    [mkAttr "id" "a"; mkAttr "class" "b"; mkAttr "id" "c"] shown square.
Definition distinctAttrs : ElementData :=
  mkElementData "DIV" [mkAttr "id" "a"; mkAttr "class" "b"] shown square.

(** Child nodes with text, a comment and a text node of spaces. *)
Definition textChildren : list Node :=
  [Text " hi "; Comment "x"; Text "  "; el "SPAN" [] [Text "in"]; Text "you"].

(** [a], two line feeds, [b]. *)
Definition twoParagraphs : string := "a" ++ nl ++ nl ++ "b".

(** [<code>x</code>] *)
Definition codeElement : Node := el "CODE" [] [Text "x"].

(** The children of a [div] of which only the last is rendered. *)
Definition mostlySilent : list Node :=
  [Text "  "; Comment "c"; el "SCRIPT" [] [Text "x"]; Text "a"].

(** The items of [bulletList], and the text of a quote of two lines. *)
Definition bulletItems : list Node :=
  [el "LI" [] [Text "a"]; el "LI" [] [Text "b"]].
Definition quoteChildren : list Node := [Text ("a" ++ nl ++ "b")].

(** [<div><div>x</div></div>] *)
Definition nestedDivs : Node := el "DIV" [] [el "DIV" [] [Text "x"]].

(** [<div b 10 2 __proto__="p">] *)
Definition numberedAttrs : ElementData :=
  mkElementData "DIV"
    [mkAttr "b" ""; mkAttr "10" ""; mkAttr "2" ""; mkAttr "__proto__" "p"]
    shown square.

End Fixtures.

(* ================================================================= *)
(** ** Properties of the snapshot extractor *)

Section SnapshotProperties.
Import JsString Dom Snapshot.

Lemma children_loop (depth maxDepth : nat) (cs : list Node) :
  forall acc,
    fold_left
      (fun acc child =>
         match child with
         | Element _ _ =>
             match extractElement child depth maxDepth with
             | Some childNode => (acc ++ [childNode])%list
             | None => acc
             end
         | _ => acc
         end) cs acc
    = (acc ++ flat_map (childResult depth maxDepth) (filter isElement cs))%list.
Proof.
  induction cs as [|c cs IH]; intros acc; cbn [fold_left filter flat_map].
  - now rewrite app_nil_r.
  - destruct c as [e ks|d|d]; cbn [isElement flat_map]; auto.
    unfold childResult at 1.
    destruct (extractElement (Element e ks) depth maxDepth);
      rewrite IH; auto.
    now rewrite <- app_assoc.
Qed.

(** [extractElement] on an element, with its loops read as list
    operations. *)
Lemma extractElement_element (e : ElementData) (cs : list Node) (depth maxDepth : nat) :
  extractElement (Element e cs) depth maxDepth =
  if maxDepth <? depth then None
  else if includes skippedTags (toLowerCase (tagName e)) then None
  else Some {|
    tag_name := toLowerCase (tagName e);
    attributes :=
      fold_left (fun obj attr => setProperty obj (name attr) (value attr))
        (Dom.attributes e) [];
    text_content :=
      if truthy (directText cs) then Some (directText cs) else None;
    children :=
      flat_map (childResult (depth + 1) maxDepth) (filter isElement cs);
    is_visible := isVisible e;
    is_interactive := false;
    bounding_box :=
      if isVisible e
      then Some (mkBox (Dom.x (boundingClientRect e)) (Dom.y (boundingClientRect e))
                   (Dom.width (boundingClientRect e)) (Dom.height (boundingClientRect e)))
      else None |}.
Proof.
  change (extractElement (Element e cs) depth maxDepth) with
    (if maxDepth <? depth then None
     else if includes skippedTags (toLowerCase (tagName e)) then None
     else Some {|
       tag_name := toLowerCase (tagName e);
       attributes :=
         fold_left (fun obj attr => setProperty obj (name attr) (value attr))
           (Dom.attributes e) [];
       text_content :=
         if truthy (directText cs) then Some (directText cs) else None;
       children :=
         fold_left
           (fun acc child =>
              match child with
              | Element _ _ =>
                  match extractElement child (depth + 1) maxDepth with
                  | Some childNode => (acc ++ [childNode])%list
                  | None => acc
                  end
              | _ => acc
              end) cs [];
       is_visible := isVisible e;
       is_interactive := false;
       bounding_box :=
         if isVisible e
         then Some (mkBox (Dom.x (boundingClientRect e)) (Dom.y (boundingClientRect e))
                      (Dom.width (boundingClientRect e)) (Dom.height (boundingClientRect e)))
         else None |}).
  now rewrite children_loop.
Qed.

Lemma extractElement_no_element (element : Node) (depth maxDepth : nat) :
  isElement element = false -> extractElement element depth maxDepth = None.
Proof.
  destruct element; try discriminate; intros _;
    cbn [extractElement]; now destruct (maxDepth <? depth).
Qed.

(** The shape of every result of [extractElement]. *)
Lemma extractElement_some (element : Node) (depth maxDepth : nat) (out : ElementNode) :
  extractElement element depth maxDepth = Some out ->
  depth <= maxDepth /\ isContent element = true /\
  tag_name out = lowerTag element /\
  children out = flat_map (childResult (depth + 1) maxDepth) (Dom.children element) /\
  exists e cs, element = Element e cs /\
    is_visible out = isVisible e /\
    bounding_box out =
      (if isVisible e
       then Some (mkBox (Dom.x (boundingClientRect e)) (Dom.y (boundingClientRect e))
                        (Dom.width (boundingClientRect e)) (Dom.height (boundingClientRect e)))
       else None).
Proof.
  destruct element as [e cs|d|d];
    [|now rewrite extractElement_no_element..].
  rewrite extractElement_element.
  destruct (Nat.ltb_spec maxDepth depth) as [Hlt|Hle]; try discriminate.
  unfold isContent; cbn [isElement lowerTag andb].
  destruct (includes skippedTags (toLowerCase (tagName e))) eqn:Hskip; try discriminate.
  intros H; injection H as <-; cbn.
  repeat split; auto.
  exists e, cs; auto.
Qed.

(** [extractElement] gives a node exactly for the content elements
    that are not deeper than the limit. *)
Lemma extractElement_defined (element : Node) (depth maxDepth : nat) :
  depth <= maxDepth -> isContent element = true ->
  exists out, extractElement element depth maxDepth = Some out.
Proof.
  intros Hle Hc. destruct element as [e cs|d|d]; try discriminate.
  unfold isContent in Hc; cbn [isElement lowerTag andb] in Hc.
  rewrite extractElement_element.
  destruct (Nat.ltb_spec maxDepth depth) as [Hlt|_]; [lia|].
  destruct (includes skippedTags (toLowerCase (tagName e))); [discriminate|].
  eexists; reflexivity.
Qed.

Lemma extractElement_too_deep (element : Node) (depth maxDepth : nat) :
  maxDepth < depth -> extractElement element depth maxDepth = None.
Proof.
  intros H. destruct element; cbn [extractElement];
    destruct (Nat.ltb_spec maxDepth depth); auto; lia.
Qed.

Lemma extractElement_skipped (e : ElementData) (cs : list Node) (depth maxDepth : nat) :
  includes skippedTags (toLowerCase (tagName e)) = true ->
  extractElement (Element e cs) depth maxDepth = None.
Proof.
  intros H. rewrite extractElement_element, H. now destruct (maxDepth <? depth).
Qed.

(** Every node of the output is the result of [extractElement] on an
    element at the same depth of the input, reached through content
    elements only. *)
Lemma provenance (maxDepth : nat) :
  forall d element depth out n,
    extractElement element depth maxDepth = Some out ->
    In n (nodesAt out d) ->
    exists e, In e (contentElementsAt element d) /\
              extractElement e (depth + d) maxDepth = Some n.
Proof.
  induction d as [|d IH]; intros element depth out n Hx Hin.
  - simpl in Hin. destruct Hin as [<-|[]].
    exists element. destruct (extractElement_some _ _ _ _ Hx) as (_ & Hc & _).
    destruct element; simpl in *; rewrite ?Hc; try discriminate.
    rewrite Nat.add_0_r. split; [now left|assumption].
  - simpl in Hin. apply in_flat_map in Hin as (c & Hc & Hn).
    destruct (extractElement_some _ _ _ _ Hx) as (_ & Hcont & _ & Hkids & _).
    rewrite Hkids in Hc. apply in_flat_map in Hc as (ch & Hch & Hres).
    unfold childResult in Hres.
    destruct (extractElement ch (depth + 1) maxDepth) as [c'|] eqn:Hxc; [|destruct Hres].
    destruct Hres as [->|[]].
    destruct (IH _ _ _ _ Hxc Hn) as (e & He & Hxe).
    exists e. split.
    + destruct element; simpl in *; rewrite ?Hcont; try discriminate.
      apply in_flat_map. exists ch. split; assumption.
    + replace (depth + S d) with (depth + 1 + d) by lia. assumption.
Qed.

Lemma outputDepth_children (n : ElementNode) :
  outputDepth n =
  fold_right (fun c acc => Nat.max (S (outputDepth c)) acc) 0 (children n).
Proof. destruct n; reflexivity. Qed.

(** The depth of the output is the content depth of the input, cut at
    the levels that are left below the limit. *)
Lemma outputDepth_extract (maxDepth : nat) (element : Node) :
  forall depth out,
    extractElement element depth maxDepth = Some out ->
    outputDepth out = Nat.min (contentDepth element) (maxDepth - depth).
Proof.
  induction element as [e cs IH|d|d] using Node_tree_ind; intros depth out Hx;
    [|now rewrite extractElement_no_element in Hx..].
  destruct (extractElement_some _ _ _ _ Hx) as (Hle & _ & _ & Hkids & _).
  rewrite outputDepth_children, Hkids.
  unfold Dom.children; cbn [childNodesOf contentDepth].
  clear Hx Hkids. induction IH as [|c cs Hc _ IHcs]; [cbn; lia|].
  cbn [filter fold_right].
  destruct (isElement c) eqn:Hel.
  - cbn [flat_map]. rewrite fold_right_app, IHcs. unfold childResult.
    destruct (extractElement c (depth + 1) maxDepth) as [o|] eqn:Hxc; cbn [fold_right].
    + destruct (extractElement_some _ _ _ _ Hxc) as (Hle' & Hcont & _).
      rewrite Hcont, (Hc _ _ Hxc). lia.
    + destruct (isContent c) eqn:Hcont; [|reflexivity].
      destruct (Nat.le_gt_cases (depth + 1) maxDepth) as [Hle'|Hgt].
      * destruct (extractElement_defined c _ _ Hle' Hcont) as (o & Ho).
        congruence.
      * lia.
  - unfold isContent. rewrite Hel. exact IHcs.
Qed.

Lemma contentDepth_le_treeDepth (n : Node) : contentDepth n <= treeDepth n.
Proof.
  induction n as [e cs IH|d|d] using Node_tree_ind; cbn [contentDepth treeDepth]; auto.
  induction IH as [|c cs Hc _ IHcs]; cbn [fold_right]; auto.
  destruct (isContent c) eqn:Hcont.
  - unfold isContent in Hcont. apply andb_true_iff in Hcont as [-> _]. lia.
  - destruct (isElement c); lia.
Qed.

Lemma contentDepth_skipFree (n : Node) :
  skipFree n = true -> contentDepth n = treeDepth n.
Proof.
  unfold skipFree.
  induction n as [e cs IH|d|d] using Node_tree_ind; cbn [contentDepth treeDepth]; auto.
  cbn [descendants].
  induction IH as [|c cs Hc _ IHcs]; cbn [fold_right flat_map]; auto.
  change (forallb ?f (c :: ?l)) with (f c && forallb f l).
  rewrite forallb_app. intros H.
  apply andb_true_iff in H as [H Hcs].
  apply andb_true_iff in H as [Hself Hdesc].
  rewrite (IHcs Hcs), (Hc Hdesc).
  replace (isContent c) with (isElement c); [reflexivity|].
  unfold isContent. destruct (isElement c); cbn [andb] in *; auto.
Qed.

(** The direct text of an element depends on its text-node children
    only. *)
Lemma directText_texts (cs cs' : list Node) :
  filter isText cs = filter isText cs' -> directText cs = directText cs'.
Proof. unfold directText. now intros ->. Qed.

(** The subtrees of the skipped tags have no part in the result. *)
Lemma extractElement_withoutSkipped (maxDepth : nat) (element : Node) :
  forall depth,
    extractElement (withoutSkipped element) depth maxDepth
    = extractElement element depth maxDepth.
Proof.
  induction element as [e cs IH|d|d] using Node_tree_ind; intros depth;
    try reflexivity.
  cbn [withoutSkipped]. rewrite !extractElement_element.
  set (kept := flat_map (fun c => if isSkipped c then [] else [withoutSkipped c]) cs).
  assert (Htext : filter isText kept = filter isText cs).
  { subst kept. clear IH. induction cs as [|c cs IHcs]; [reflexivity|].
    cbn [flat_map]. rewrite filter_app, IHcs.
    destruct c as [e' ks|t|t]; try reflexivity.
    now destruct (isSkipped (Element e' ks)). }
  assert (Hkids : flat_map (childResult (depth + 1) maxDepth) (filter isElement kept)
                  = flat_map (childResult (depth + 1) maxDepth) (filter isElement cs)).
  { subst kept. clear Htext.
    induction IH as [|c cs Hc _ IHcs]; [reflexivity|].
    cbn [flat_map]. rewrite filter_app, flat_map_app, IHcs. clear IHcs.
    destruct c as [e' ks|t|t]; try reflexivity.
    destruct (isSkipped (Element e' ks)) eqn:Hs.
    - cbn [filter isElement flat_map app].
      unfold childResult at 2. rewrite extractElement_skipped; [reflexivity|].
      exact Hs.
    - cbn [withoutSkipped filter isElement flat_map app] in *.
      rewrite app_nil_r. unfold childResult at 1 3. now rewrite Hc. }
  now rewrite (directText_texts _ _ Htext), Hkids.
Qed.

(** The elements below the limit, and their subtrees, have no part in
    the result. *)
Lemma extractElement_cutBelow (maxDepth : nat) (element : Node) :
  forall depth,
    extractElement (cutBelow (maxDepth - depth) element) depth maxDepth
    = extractElement element depth maxDepth.
Proof.
  induction element as [e cs IH|d|d] using Node_tree_ind; intros depth;
    try reflexivity.
  cbn [cutBelow]. rewrite !extractElement_element.
  destruct (Nat.ltb_spec maxDepth depth) as [Hlt|Hle]; [reflexivity|].
  destruct (maxDepth - depth) as [|l] eqn:Hl.
  - assert (Htext : filter isText (filter (fun c => negb (isElement c)) cs)
                    = filter isText cs).
    { clear IH. induction cs as [|c cs IHcs]; [reflexivity|].
      destruct c; cbn; now rewrite ?IHcs. }
    assert (Hnone : forall l : list Node,
               flat_map (childResult (depth + 1) maxDepth) l = []).
    { intros l. induction l as [|c l IHl]; [reflexivity|].
      cbn [flat_map]. rewrite IHl. unfold childResult.
      rewrite extractElement_too_deep by lia. reflexivity. }
    now rewrite (directText_texts _ _ Htext), !Hnone.
  - assert (Htext : filter isText (map (cutBelow l) cs) = filter isText cs).
    { clear IH. induction cs as [|c cs IHcs]; [reflexivity|].
      cbn [map filter]. rewrite IHcs.
      destruct c; reflexivity. }
    assert (Hkids : flat_map (childResult (depth + 1) maxDepth)
                      (filter isElement (map (cutBelow l) cs))
                    = flat_map (childResult (depth + 1) maxDepth)
                        (filter isElement cs)).
    { clear Htext.
      induction IH as [|c cs Hc _ IHcs]; [reflexivity|].
      cbn [map]. destruct c as [e' ks|t|t]; try exact IHcs.
      cbn [cutBelow filter isElement flat_map] in *. rewrite IHcs.
      unfold childResult at 1 3.
      replace l with (maxDepth - (depth + 1)) by lia.
      now rewrite Hc. }
    now rewrite (directText_texts _ _ Htext), Hkids.
Qed.

Lemma isVisible_positive (e : ElementData) :
  isVisible e = true ->
  (0 < Dom.width (boundingClientRect e))%Q /\
  (0 < Dom.height (boundingClientRect e))%Q.
Proof.
  unfold isVisible, gt.
  destruct (_ || _ || _); [discriminate|].
  intros H. apply andb_true_iff in H as [Hw Hh].
  apply negb_true_iff in Hw, Hh.
  split; apply Qnot_le_lt; intros Hle; apply Qle_bool_iff in Hle; congruence.
Qed.

(** The hidden [div] of the specification: the node and its [span]
    child are not visible and carry no box. *)
Example hidden_div_snapshot :
  extractElement Fixtures.hiddenDiv 0 defaultMaxDepth
  = Some (mkElementNode "div" [] None
            [mkElementNode "span" [] (Some "hi") [] false false None]
            false false None).
Proof. reflexivity. Qed.

(** With a limit of 1 the [span] at depth 2 is left out. *)
Example snapshot_cut_at_limit :
  treeDepth Fixtures.bodyMixed = 2 /\
  option_map outputDepth (extractElement Fixtures.bodyMixed 0 1) = Some 1 /\
  option_map outputDepth (extractElement Fixtures.bodyMixed 0 defaultMaxDepth) = Some 2.
Proof. repeat split. Qed.

(** C1 (as amended).  Every node of the output of [extractElement]
    lies at a depth of at most [maxDepth] below the root and is the
    complete result of [extractElement] on an element of the input at
    that same depth; an element deeper than [maxDepth] gives no node at
    all, and the output is the same as for the tree cut below that
    depth; and the depth of the output is the depth of the input tree
    without the subtrees of its skipped tags, cut at [maxDepth]: for a
    tree of depth at most [maxDepth] it is that content depth, which is
    the true depth of the tree when no element has a skipped tag. *)
Theorem extractElement_depth_bounded (root : Node) (maxDepth : nat) (out : ElementNode) :
  extractElement root 0 maxDepth = Some out ->
  (forall d n, In n (nodesAt out d) ->
     d <= maxDepth /\
     exists e, In e (contentElementsAt root d) /\
               extractElement e d maxDepth = Some n) /\
  (forall e d, maxDepth < d -> extractElement e d maxDepth = None) /\
  extractElement (cutBelow maxDepth root) 0 maxDepth = Some out /\
  outputDepth out = Nat.min (contentDepth root) maxDepth /\
  (treeDepth root <= maxDepth ->
     outputDepth out = contentDepth root /\
     (skipFree root = true -> outputDepth out = treeDepth root)).
Proof.
  intros Hx. repeat split.
  - destruct (provenance maxDepth d root 0 out n Hx H) as (e & _ & He).
    now destruct (extractElement_some _ _ _ _ He).
  - destruct (provenance maxDepth d root 0 out n Hx H) as (e & Hin & He).
    exists e. now split.
  - intros e d. apply extractElement_too_deep.
  - rewrite <- Hx, <- (extractElement_cutBelow maxDepth root 0).
    now rewrite Nat.sub_0_r.
  - rewrite (outputDepth_extract _ _ _ _ Hx). now rewrite Nat.sub_0_r.
  - rewrite (outputDepth_extract _ _ _ _ Hx), Nat.sub_0_r.
    pose proof (contentDepth_le_treeDepth root). lia.
  - intros Hfree.
    rewrite (outputDepth_extract _ _ _ _ Hx), Nat.sub_0_r.
    rewrite (contentDepth_skipFree _ Hfree). lia.
Qed.

(** C1, the claim as written fails: a [body] whose only child is a
    [script] has depth 1, within the default limit, and its snapshot
    has depth 0. *)
Lemma extractElement_depth_counterexample :
  ~ (forall root maxDepth out,
       treeDepth root <= maxDepth ->
       extractElement root 0 maxDepth = Some out ->
       outputDepth out = treeDepth root).
Proof.
  intros H.
  destruct (extractElement Fixtures.bodyWithScript 0 defaultMaxDepth) as [out|] eqn:Hx;
    [|discriminate].
  specialize (H Fixtures.bodyWithScript defaultMaxDepth out).
  injection Hx as <-. vm_compute in H.
  assert (0 = 1) by (apply H; [repeat constructor|reflexivity]).
  discriminate.
Qed.

(** C2.  No node of the output has a skipped tag (script, style,
    noscript, meta, link), and every node of the output comes from an
    element of the input none of whose ancestors, nor itself, has a
    skipped tag, whatever its depth and whether it is visible or not;
    on an element with a skipped tag [extractElement] returns at once,
    whatever the children are; and the output is the same as for the
    tree from which the elements with a skipped tag are removed with
    their subtrees. *)
Theorem extractElement_skips_excluded (root : Node) (maxDepth : nat) (out : ElementNode) :
  extractElement root 0 maxDepth = Some out ->
  (forall d n, In n (nodesAt out d) ->
     includes skippedTags (tag_name n) = false /\
     exists e, In e (contentElementsAt root d) /\
               isContent e = true /\
               extractElement e d maxDepth = Some n) /\
  (forall e cs depth,
     includes skippedTags (toLowerCase (tagName e)) = true ->
     extractElement (Element e cs) depth maxDepth = None) /\
  extractElement (withoutSkipped root) 0 maxDepth = Some out.
Proof.
  intros Hx. split; [|split].
  - intros d n Hin.
    destruct (provenance maxDepth d root 0 out n Hx Hin) as (e & He & Hxe).
    destruct (extractElement_some _ _ _ _ Hxe) as (_ & Hc & Htag & _).
    split.
    + rewrite Htag. unfold isContent in Hc.
      apply andb_true_iff in Hc as [_ Hc]. now apply negb_true_iff in Hc.
    + exists e. auto.
  - intros e cs depth. apply extractElement_skipped.
  - now rewrite extractElement_withoutSkipped.
Qed.

(** C3.  A node of the output that is marked visible carries a box of
    strictly positive width and height, and a node that is marked not
    visible carries no box. *)
Theorem visible_nodes_carry_box (root : Node) (depth maxDepth : nat) (out : ElementNode) :
  extractElement root depth maxDepth = Some out ->
  forall d n, In n (nodesAt out d) ->
    (is_visible n = true ->
       exists b, bounding_box n = Some b /\ (0 < width b)%Q /\ (0 < height b)%Q) /\
    (is_visible n = false -> bounding_box n = None).
Proof.
  intros Hx d n Hin.
  destruct (provenance maxDepth d root depth out n Hx Hin) as (x & _ & Hxe).
  destruct (extractElement_some _ _ _ _ Hxe) as (_ & _ & _ & _ & e & cs & _ & Hv & Hb).
  rewrite Hb, Hv. split; intros H; rewrite H; [|reflexivity].
  eexists. split; [reflexivity|]. now apply isVisible_positive.
Qed.

(** C8.  When the document has no body the script returns the
    fallback object with the four properties [tag_name: 'body'],
    [attributes: {}], [children: []] and [is_visible: false]. *)
Theorem extractDom_without_body (document : Document) :
  Dom.body document = None ->
  extractDom document =
  JsObject [ ("tag_name", JsStr "body");
             ("attributes", JsObject []);
             ("children", JsArray []);
             ("is_visible", JsBool false) ].
Proof.
  intros H. unfold extractDom. now rewrite H.
Qed.

(** The depth bound on a body with a hidden subtree and a style element. *)
Lemma extractElement_depth_bounded_witness :
  exists out,
    extractElement Fixtures.bodyMixed 0 defaultMaxDepth = Some out /\
    (forall d n, In n (nodesAt out d) ->
       d <= defaultMaxDepth /\
       exists e, In e (contentElementsAt Fixtures.bodyMixed d) /\
                 extractElement e d defaultMaxDepth = Some n) /\
    (forall e d, defaultMaxDepth < d -> extractElement e d defaultMaxDepth = None) /\
    extractElement (cutBelow defaultMaxDepth Fixtures.bodyMixed) 0 defaultMaxDepth
    = Some out /\
    outputDepth out = Nat.min (contentDepth Fixtures.bodyMixed) defaultMaxDepth /\
    (treeDepth Fixtures.bodyMixed <= defaultMaxDepth ->
       outputDepth out = contentDepth Fixtures.bodyMixed /\
       (skipFree Fixtures.bodyMixed = true ->
        outputDepth out = treeDepth Fixtures.bodyMixed)).
Proof.
  eexists. split; [reflexivity|].
  apply (extractElement_depth_bounded Fixtures.bodyMixed defaultMaxDepth).
  reflexivity.
Defined.

(** The exclusion of skipped tags on the same body. *)
Lemma extractElement_skips_excluded_witness :
  exists out,
    extractElement Fixtures.bodyMixed 0 defaultMaxDepth = Some out /\
    (forall d n, In n (nodesAt out d) ->
       includes skippedTags (tag_name n) = false /\
       exists e, In e (contentElementsAt Fixtures.bodyMixed d) /\
                 isContent e = true /\
                 extractElement e d defaultMaxDepth = Some n) /\
    (forall e cs depth,
       includes skippedTags (toLowerCase (tagName e)) = true ->
       extractElement (Element e cs) depth defaultMaxDepth = None) /\
    extractElement (withoutSkipped Fixtures.bodyMixed) 0 defaultMaxDepth = Some out.
Proof.
  eexists. split; [reflexivity|].
  apply (extractElement_skips_excluded Fixtures.bodyMixed defaultMaxDepth).
  reflexivity.
Defined.

(** Visibility and boxes on the same body. *)
Lemma visible_nodes_carry_box_witness :
  exists out,
    extractElement Fixtures.bodyMixed 0 defaultMaxDepth = Some out /\
    forall d n, In n (nodesAt out d) ->
      (is_visible n = true ->
         exists b, bounding_box n = Some b /\ (0 < width b)%Q /\ (0 < height b)%Q) /\
      (is_visible n = false -> bounding_box n = None).
Proof.
  eexists. split; [reflexivity|].
  apply (visible_nodes_carry_box Fixtures.bodyMixed 0 defaultMaxDepth).
  reflexivity.
Defined.

(** The fallback object for a document without a root element. *)
Lemma extractDom_without_body_witness :
  Dom.body Fixtures.emptyDocument = None /\
  extractDom Fixtures.emptyDocument =
  JsObject [ ("tag_name", JsStr "body");
             ("attributes", JsObject []);
             ("children", JsArray []);
             ("is_visible", JsBool false) ].
Proof.
  split; [reflexivity|].
  apply (extractDom_without_body Fixtures.emptyDocument). reflexivity.
Defined.

End SnapshotProperties.

(* ================================================================= *)
(** ** Properties of the Markdown renderer *)

Section MarkdownProperties.
Import JsString Dom Markdown.

Lemma append_nil_r (s : string) : s ++ "" = s.
Proof. induction s; cbn; congruence. Qed.

Lemma append_assoc (s1 s2 s3 : string) : (s1 ++ s2) ++ s3 = s1 ++ s2 ++ s3.
Proof. induction s1; cbn; congruence. Qed.

(** A loop that appends one piece for each item builds the
    concatenation of the pieces. *)
Lemma append_loop {A : Type} (piece : A -> string) (l : list A) :
  forall acc,
    fold_left (fun text x => text ++ piece x) l acc
    = acc ++ concatAll (map piece l).
Proof.
  induction l as [|x l IH]; intros acc; cbn [fold_left map concatAll fold_right].
  - now rewrite append_nil_r.
  - rewrite IH, append_assoc. reflexivity.
Qed.

Lemma forEachFrom_lines {A : Type} (f : string -> A -> nat -> string)
      (line : nat -> A -> string) (l : list A) :
  forall index acc,
    (forall i text x, index <= i -> f text x i = text ++ line i x) ->
    forEachFrom f l index acc
    = acc ++ concatAll (map (fun p => line (fst p) (snd p))
                            (combine (seq index (List.length l)) l)).
Proof.
  induction l as [|x l IH]; intros index acc Hf;
    cbn [forEachFrom List.length seq combine map concatAll fold_right fst snd].
  - now rewrite append_nil_r.
  - rewrite IH by (intros; apply Hf; lia).
    rewrite Hf, append_assoc by lia. reflexivity.
Qed.

Lemma getTextContent_element (e : ElementData) (cs : list Node) :
  getTextContent (Element e cs)
  = trim (concatAll (map (flatPiece getTextContent) cs)).
Proof.
  cbn [getTextContent]. f_equal.
  change (concatAll (map (flatPiece getTextContent) cs))
    with ("" ++ concatAll (map (flatPiece getTextContent) cs)).
  rewrite <- append_loop.
  generalize "" as acc.
  induction cs as [|c cs IH]; intros acc; cbn [fold_left]; [reflexivity|].
  rewrite IH. f_equal.
  destruct c as [e' ks|d|d]; cbn [flatPiece]; rewrite ?append_nil_r; auto.
  destruct (includes textSkippedTags (lowerTag (Element e' ks)));
    cbn [negb]; now rewrite ?append_nil_r.
Qed.

(** C4 (as amended).  [getTextContent] gives the trimmed data of a
    text node and, for an element, the trimmed concatenation, with
    nothing put between, of what its child nodes give in order: the
    data of a text node as it is, the flat text of a child element
    unless that is a script, style or noscript element, and nothing for
    those and for comments. *)
Theorem getTextContent_flatText (n : Node) : getTextContent n = flatText n.
Proof.
  induction n as [e cs IH|d|d] using Node_tree_ind; try reflexivity.
  rewrite getTextContent_element. cbn [flatText]. do 2 f_equal.
  induction IH as [|c cs Hc _ IHcs]; cbn [map]; [reflexivity|].
  rewrite IHcs. f_equal.
  destruct c; cbn [flatPiece]; auto. now rewrite Hc.
Qed.

(** C4, the claim as written fails: the text pieces are not joined by
    spaces.  For [<p>Hello<b>world</b></p>] the helper gives
    [Helloworld], where the trimmed pieces joined by single spaces are
    [Hello world]. *)
Lemma getTextContent_not_space_joined :
  getTextContent Fixtures.gluedParagraph = "Helloworld" /\
  spaceJoinedText Fixtures.gluedParagraph = "Hello world" /\
  getTextContent Fixtures.gluedParagraph <> spaceJoinedText Fixtures.gluedParagraph.
Proof.
  repeat split; try reflexivity. vm_compute. discriminate.
Qed.

Lemma map_snd_indexed {A B : Type} (g : A -> B) (l : list A) :
  forall index,
    map (fun p => g (snd p)) (combine (seq index (List.length l)) l) = map g l.
Proof.
  induction l as [|x l IH]; intros index; cbn; [reflexivity|].
  now rewrite IH.
Qed.

Lemma querySelector_found (sel : Selector) (n : Node) :
  (exists c, In c (descendants n) /\ matches sel c = true) <->
  (exists c, querySelector sel n = Some c).
Proof.
  unfold querySelector, querySelectorAll. split.
  - intros (c & Hin & Hm).
    assert (Hf : In c (filter (matches sel) (descendants n)))
      by (apply filter_In; auto).
    destruct (filter (matches sel) (descendants n)) as [|c' l]; [destruct Hf|].
    now exists c'.
  - intros (c & Hc).
    destruct (filter (matches sel) (descendants n)) as [|c' l] eqn:Hf;
      [discriminate|].
    injection Hc as ->.
    assert (Hin : In c (filter (matches sel) (descendants n)))
      by (rewrite Hf; now left).
    apply filter_In in Hin. now exists c.
Qed.

(** The rows after the first one are rendered as their lines only. *)
Lemma convertTable_rest (hasHeader : bool) (rest : list Node) (acc : string) :
  forEachFrom
    (fun markdown row rowIndex =>
       let cells := querySelectorAll (SelList (SelType "th") (SelType "td")) row in
       let cellTexts := map getTextContent cells in
       let markdown := markdown ++ "| " ++ join " | " cellTexts ++ " |" ++ nl in
       if (rowIndex =? 0) && hasHeader
       then markdown ++ "| " ++ join " | " (map (fun _ => "---") cells)
                     ++ " |" ++ nl
       else markdown)
    rest 1 acc
  = acc ++ concatAll (map rowLine rest).
Proof.
  rewrite (forEachFrom_lines _ (fun _ row => rowLine row)).
  - cbn [fst snd]. now rewrite map_snd_indexed.
  - intros i text row Hi. cbv zeta.
    destruct i as [|i]; [lia|]. reflexivity.
Qed.

(** C5.  For a table with at least one row, when the table holds a
    header cell anywhere the output is the line of the first row, then
    one separator line, then the lines of the other rows; when it
    holds no header cell the output is the lines of the rows and no
    separator line. *)
Theorem convertTable_separator (table r0 : Node) (rest : list Node) :
  querySelectorAll (SelType "tr") table = r0 :: rest ->
  ((exists c, In c (descendants table) /\ matches (SelType "th") c = true) ->
   convertTable table
   = rowLine r0 ++ separatorLine r0 ++ concatAll (map rowLine rest)) /\
  (~ (exists c, In c (descendants table) /\ matches (SelType "th") c = true) ->
   convertTable table
   = rowLine r0 ++ concatAll (map rowLine rest)).
Proof.
  intros Hrows. unfold convertTable. rewrite Hrows.
  cbn [List.length Nat.eqb]. unfold forEach. cbn [forEachFrom].
  rewrite convertTable_rest. cbn [Nat.eqb andb].
  split; intros Hth.
  - apply querySelector_found in Hth as (c & ->).
    rewrite append_assoc. reflexivity.
  - destruct (querySelector (SelType "th") table) as [c|] eqn:Hq.
    + exfalso. apply Hth. apply querySelector_found. now exists c.
    + reflexivity.
Qed.

(** C6 (as amended).  For a table element without rows [convertTable]
    gives the empty string, and what [htmlToMarkdown] gives for the
    element is the two line feeds that follow every table. *)
Theorem htmlToMarkdown_table_without_rows
        (parent : option string) (e : ElementData) (cs : list Node) :
  toLowerCase (tagName e) = "table" ->
  querySelectorAll (SelType "tr") (Element e cs) = [] ->
  convertTable (Element e cs) = "" /\
  htmlToMarkdown parent (Element e cs) = nl ++ nl.
Proof.
  intros Htag Hrows.
  assert (Hc : convertTable (Element e cs) = "")
    by (unfold convertTable; now rewrite Hrows).
  split; [exact Hc|].
  cbn [htmlToMarkdown lowerTag]. rewrite Htag. cbn - [convertTable nl].
  now rewrite Hc.
Qed.

(** C6, the claim as written fails: [<table></table>] has no rows and
    [htmlToMarkdown] gives two line feeds for it. *)
Lemma htmlToMarkdown_empty_table_not_empty :
  querySelectorAll (SelType "tr") Fixtures.emptyTable = [] /\
  htmlToMarkdown None Fixtures.emptyTable <> "".
Proof.
  split; [reflexivity|]. vm_compute. discriminate.
Qed.

(** C7 (as amended).  For [<h1>Title</h1><p>Hello <b>world</b></p>]
    in a [body], [htmlToMarkdown] gives a line feed, [# Title], two
    line feeds, [Hello world] and two line feeds, and the content that
    the script returns for a page with this body is that text without
    the line feeds at its two ends; the paragraph alone gives
    [Hello world] and two line feeds, with no mark of the bold run. *)
Theorem title_and_paragraph_rendering :
  htmlToMarkdown None Fixtures.titleAndParagraph
  = nl ++ "# Title" ++ nl ++ nl ++ "Hello world" ++ nl ++ nl /\
  content (extractContent (Fixtures.page [Fixtures.titleAndParagraph]))
  = "# Title" ++ nl ++ nl ++ "Hello world" /\
  htmlToMarkdown (Some "BODY")
    (Fixtures.el "P" [] [Text "Hello "; Fixtures.el "B" [] [Text "world"]])
  = "Hello world" ++ nl ++ nl.
Proof.
  repeat split; vm_compute; reflexivity.
Qed.

(** C7, the claim as written fails: neither what [htmlToMarkdown]
    gives for the fragment nor the content that the script returns is
    [# Title], two line feeds, [Hello world], two line feeds. *)
Lemma title_and_paragraph_not_as_claimed :
  htmlToMarkdown None Fixtures.titleAndParagraph
  <> "# Title" ++ nl ++ nl ++ "Hello world" ++ nl ++ nl /\
  content (extractContent (Fixtures.page [Fixtures.titleAndParagraph]))
  <> "# Title" ++ nl ++ nl ++ "Hello world" ++ nl ++ nl.
Proof.
  split; vm_compute; discriminate.
Qed.

(** C10.  For an ordered list the output is, for each element child
    in turn, the line of that child, and a line feed at the end; the
    line of a child that is a list item starts with its position among
    all the element children, counted from 1, and a child that is no
    list item has no line. *)
Theorem ordered_list_numbering
        (parent : option string) (e : ElementData) (cs : list Node) :
  toLowerCase (tagName e) = "ol" ->
  htmlToMarkdown parent (Element e cs)
  = concatAll (map (fun p => orderedItemLine (fst p) (snd p))
                   (indexed (children (Element e cs))))
    ++ nl.
Proof.
  intros Htag.
  cbn [htmlToMarkdown lowerTag]. rewrite Htag.
  cbn - [forEach children getTextContent ofNat nl lowerTag].
  unfold forEach.
  rewrite (forEachFrom_lines _ orderedItemLine); [reflexivity|].
  intros i text li _. unfold orderedItemLine.
  destruct (lowerTag li =? "li")%string.
  - now rewrite append_assoc.
  - now rewrite append_nil_r.
Qed.

(** The lists and links of the specification. *)
Example bullet_list_rendering :
  htmlToMarkdown None Fixtures.bulletList = "- a" ++ nl ++ "- b" ++ nl ++ nl.
Proof. vm_compute. reflexivity. Qed.

Example link_rendering :
  htmlToMarkdown None Fixtures.linkWithHref = "[go](/x)" /\
  htmlToMarkdown None Fixtures.linkWithoutHref = "[go]()".
Proof. split; vm_compute; reflexivity. Qed.

Example headed_table_rendering :
  convertTable Fixtures.headedTable
  = "| a | b |" ++ nl ++ "| --- | --- |" ++ nl ++ "| c |" ++ nl.
Proof. vm_compute. reflexivity. Qed.

(** A [div] between two items takes the number 2: the items are
    numbered 1 and 3. *)
Example ordered_list_with_div :
  htmlToMarkdown None Fixtures.listWithDiv
  = "1. a" ++ nl ++ "3. b" ++ nl ++ nl.
Proof. vm_compute. reflexivity. Qed.

(** The separator line of a table with one header cell. *)
Lemma convertTable_separator_witness :
  querySelectorAll (SelType "tr") Fixtures.headedTable
  = [Fixtures.headerRow; Fixtures.dataRow] /\
  convertTable Fixtures.headedTable
  = rowLine Fixtures.headerRow ++ separatorLine Fixtures.headerRow
    ++ concatAll (map rowLine [Fixtures.dataRow]).
Proof.
  split; [reflexivity|].
  apply (convertTable_separator Fixtures.headedTable Fixtures.headerRow
           [Fixtures.dataRow]); [reflexivity|].
  exists Fixtures.headerCell. split; [|reflexivity].
  cbn. right. left. reflexivity.
Defined.

(** The rendering of [<table></table>]. *)
Lemma htmlToMarkdown_table_without_rows_witness :
  convertTable Fixtures.emptyTable = "" /\
  htmlToMarkdown None Fixtures.emptyTable = nl ++ nl.
Proof.
  apply (htmlToMarkdown_table_without_rows None
           (mkElementData "TABLE" [] Fixtures.shown Fixtures.square) []);
    reflexivity.
Defined.

(** The numbering of an ordered list with a [div] between its items. *)
Lemma ordered_list_numbering_witness :
  htmlToMarkdown None Fixtures.listWithDiv
  = concatAll (map (fun p => orderedItemLine (fst p) (snd p))
                   (indexed (children Fixtures.listWithDiv)))
    ++ nl.
Proof.
  apply (ordered_list_numbering None
           (mkElementData "OL" [] Fixtures.shown Fixtures.square)).
  reflexivity.
Defined.

End MarkdownProperties.

(* ================================================================= *)
(** ** Facts about the string operations *)

Section StringFacts.
Import JsString.

Lemma trimStart_firstClean (s : string) : firstClean (trimStart s) = true.
Proof.
  induction s as [|c s IH]; cbn [trimStart]; [reflexivity|].
  destruct (isWhiteSpace c) eqn:Hc; [exact IH|].
  cbn [firstClean]. now rewrite Hc.
Qed.

Lemma trimStart_clean (s : string) : firstClean s = true -> trimStart s = s.
Proof.
  destruct s as [|c s]; cbn [firstClean trimStart]; [reflexivity|].
  now destruct (isWhiteSpace c).
Qed.

Lemma trimEnd_firstClean (s : string) :
  firstClean s = true -> firstClean (trimEnd s) = true.
Proof.
  destruct s as [|c s]; cbn [firstClean trimEnd]; [reflexivity|].
  intros Hc. destruct (trimEnd s); [|exact Hc].
  destruct (isWhiteSpace c) eqn:Hw; [reflexivity|].
  cbn [firstClean]. now rewrite Hw.
Qed.

Lemma trimEnd_idempotent (s : string) : trimEnd (trimEnd s) = trimEnd s.
Proof.
  induction s as [|c s IH]; [reflexivity|].
  cbn [trimEnd]. destruct (trimEnd s) as [|c' t] eqn:Ht.
  - destruct (isWhiteSpace c) eqn:Hc; [reflexivity|].
    cbn [trimEnd]. now rewrite Hc.
  - cbn [trimEnd]. cbn [trimEnd] in IH. now rewrite IH.
Qed.

(** Trimming a second time changes nothing. *)
Lemma trim_idempotent (s : string) : trim (trim s) = trim s.
Proof.
  unfold trim.
  rewrite (trimStart_clean (trimEnd (trimStart s))).
  - apply trimEnd_idempotent.
  - apply trimEnd_firstClean, trimStart_firstClean.
Qed.

Lemma trim_firstClean (s : string) : firstClean (trim s) = true.
Proof. apply trimEnd_firstClean, trimStart_firstClean. Qed.

Lemma trimEnd_trim (s : string) : trimEnd (trim s) = trim s.
Proof. apply trimEnd_idempotent. Qed.

Lemma append_empty (a b : string) : a ++ b = "" -> b = "".
Proof. destruct a; [trivial|discriminate]. Qed.

Lemma trimEnd_append (a b : string) :
  b <> "" -> trimEnd b = b -> trimEnd (a ++ b) = a ++ b.
Proof.
  intros Hb Hfix. induction a as [|c a IH]; [exact Hfix|].
  cbn [append trimEnd]. rewrite IH.
  destruct (a ++ b) eqn:Hab; [|reflexivity].
  apply append_empty in Hab. contradiction.
Qed.

Lemma trimStart_append (a b : string) :
  a <> "" -> firstClean a = true -> trimStart (a ++ b) = a ++ b.
Proof.
  intros Ha Hc. destruct a as [|c a]; [contradiction|].
  cbn [firstClean] in Hc. cbn [append trimStart].
  now destruct (isWhiteSpace c).
Qed.

(** Trimmed pieces that are not empty, joined by single spaces, give a
    string that is not empty and is trimmed. *)
Lemma join_trimmed (pieces : list string) :
  pieces <> [] ->
  Forall (fun t => t <> "" /\ firstClean t = true /\ trimEnd t = t) pieces ->
  join " " pieces <> "" /\ trim (join " " pieces) = join " " pieces.
Proof.
  intros Hne Hall.
  assert (Hend : join " " pieces <> "" /\ trimEnd (join " " pieces) = join " " pieces).
  { destruct pieces as [|t ps]; [contradiction|]. clear Hne.
    revert t Hall. induction ps as [|t' ps IH]; intros t Hall;
      inversion Hall as [|? ? (Ht & _ & Hfix) Hps]; subst.
    - now split.
    - unfold join in *. cbn [String.concat].
      destruct (IH t' Hps) as (Hne' & Hfix').
      split.
      + destruct t; [contradiction|discriminate].
      + rewrite <- append_assoc. apply trimEnd_append; assumption. }
  destruct Hend as (Hne' & Hfix). split; [exact Hne'|].
  unfold trim. destruct pieces as [|t ps]; [contradiction|].
  inversion Hall as [|? ? (Ht & Hc & _) _]; subst.
  rewrite trimStart_clean; [exact Hfix|].
  unfold join. destruct ps; cbn [String.concat]; [exact Hc|].
  destruct t; [contradiction|exact Hc].
Qed.

End StringFacts.

(* ================================================================= *)
(** ** Further properties of the snapshot extractor *)

Section SnapshotCoverage.
Import JsString Dom Snapshot.

(** A property of every result of [extractElement] on an element holds
    of every node of an output tree. *)
Lemma every_node (maxDepth : nat) (P : ElementNode -> Prop) :
  (forall e cs depth n,
      extractElement (Element e cs) depth maxDepth = Some n -> P n) ->
  forall root depth out d n,
    extractElement root depth maxDepth = Some out ->
    In n (nodesAt out d) -> P n.
Proof.
  intros HP root depth out d n Hx Hin.
  destruct (provenance maxDepth d root depth out n Hx Hin) as (x & _ & Hxe).
  destruct x as [e cs|t|t]; [|now rewrite extractElement_no_element in Hxe..].
  exact (HP _ _ _ _ Hxe).
Qed.

(** The fields of the node that [extractElement] builds for an element. *)
Lemma extractElement_fields (e : ElementData) (cs : list Node)
      (depth maxDepth : nat) (out : ElementNode) :
  extractElement (Element e cs) depth maxDepth = Some out ->
  tag_name out = toLowerCase (tagName e) /\
  attributes out =
    fold_left (fun obj attr => setProperty obj (name attr) (value attr))
      (Dom.attributes e) [] /\
  text_content out =
    (if truthy (directText cs) then Some (directText cs) else None) /\
  is_interactive out = false.
Proof.
  rewrite extractElement_element.
  destruct (maxDepth <? depth); [discriminate|].
  destruct (includes skippedTags (toLowerCase (tagName e))); [discriminate|].
  intros H. injection H as <-. cbn. auto.
Qed.

(** X1.  Nothing above the limit is lost: every element at a depth of
    at most [maxDepth] that has no skipped tag and no ancestor with a
    skipped tag has its node in the output, at the same depth. *)
Theorem snapshot_complete (maxDepth : nat) :
  forall d root depth out e,
    extractElement root depth maxDepth = Some out ->
    In e (contentElementsAt root d) ->
    depth + d <= maxDepth ->
    exists n, In n (nodesAt out d) /\
              extractElement e (depth + d) maxDepth = Some n.
Proof.
  induction d as [|d IH]; intros root depth out e Hx Hin Hle.
  - destruct (extractElement_some _ _ _ _ Hx) as (_ & Hc & _).
    cbn [contentElementsAt] in Hin. rewrite Hc in Hin.
    destruct Hin as [<-|[]]. exists out. rewrite Nat.add_0_r.
    split; [now left|assumption].
  - destruct (extractElement_some _ _ _ _ Hx) as (_ & Hc & _ & Hkids & _).
    cbn [contentElementsAt] in Hin. rewrite Hc in Hin.
    apply in_flat_map in Hin as (c & Hcin & Hein).
    assert (Hcc : isContent c = true).
    { destruct d; cbn [contentElementsAt] in Hein;
        destruct (isContent c); auto; destruct Hein. }
    destruct (extractElement_defined c (depth + 1) maxDepth) as (oc & Hoc);
      [lia|exact Hcc|].
    destruct (IH c (depth + 1) oc e Hoc Hein) as (n & Hn & Hxe); [lia|].
    exists n. split.
    + cbn [nodesAt]. apply in_flat_map. exists oc. split; [|exact Hn].
      rewrite Hkids. apply in_flat_map. exists c. split; [exact Hcin|].
      unfold childResult. rewrite Hoc. now left.
    + replace (depth + S d) with (depth + 1 + d) by lia. exact Hxe.
Qed.

(** X2.  Above the limit the children of a node are exactly the
    results of [extractElement], one level deeper, on the element
    children that have no skipped tag, one for each and in document
    order; a node at the limit has no children. *)
Theorem children_in_document_order
        (e : ElementData) (cs : list Node) (depth maxDepth : nat) (out : ElementNode) :
  extractElement (Element e cs) depth maxDepth = Some out ->
  (depth < maxDepth ->
   map Some (children out)
   = map (fun c => extractElement c (depth + 1) maxDepth) (filter isContent cs)) /\
  (depth = maxDepth -> children out = []).
Proof.
  intros Hx.
  destruct (extractElement_some _ _ _ _ Hx) as (_ & _ & _ & Hkids & _).
  rewrite Hkids. unfold Dom.children. cbn [childNodesOf]. clear Hx Hkids.
  split; intros Hd.
  - induction cs as [|c cs IH]; [reflexivity|].
    cbn [filter]. unfold isContent at 1.
    destruct (isElement c) eqn:Hel; cbn [andb]; [|exact IH].
    cbn [flat_map]. rewrite map_app, IH. unfold childResult.
    destruct (extractElement c (depth + 1) maxDepth) as [o|] eqn:Hxc.
    + destruct (extractElement_some _ _ _ _ Hxc) as (_ & Hc & _).
      unfold isContent in Hc. rewrite Hel in Hc. cbn [andb] in Hc.
      rewrite Hc. cbn [map app]. now rewrite Hxc.
    + destruct (negb (includes skippedTags (lowerTag c))) eqn:Hs; [|reflexivity].
      destruct (extractElement_defined c (depth + 1) maxDepth) as (o & Ho);
        [lia|unfold isContent; now rewrite Hel, Hs|congruence].
  - induction (filter isElement cs) as [|c l IH]; [reflexivity|].
    cbn [flat_map]. rewrite IH. unfold childResult.
    now rewrite extractElement_too_deep by lia.
Qed.

(** The direct text is empty when no text-node child has text, and is
    a trimmed string that is not empty otherwise. *)
Lemma directText_cases (cs : list Node) :
  (existsb hasText cs = false /\ directText cs = "") \/
  (existsb hasText cs = true /\ directText cs <> "" /\
   trim (directText cs) = directText cs).
Proof.
  unfold directText.
  set (pieces := filter (fun t => 0 <? String.length t)
                   (map (fun n => trim (textContent n)) (filter isText cs))).
  assert (Hall : Forall (fun t => t <> "" /\ firstClean t = true /\ trimEnd t = t)
                   pieces).
  { apply Forall_forall. intros t Ht. subst pieces.
    apply filter_In in Ht as (Ht & Hlen).
    apply in_map_iff in Ht as (n & <- & _).
    repeat split.
    - intros Hnil. rewrite Hnil in Hlen. discriminate.
    - apply trim_firstClean.
    - apply trimEnd_trim. }
  assert (Hex : existsb hasText cs = match pieces with [] => false | _ => true end).
  { subst pieces. clear Hall. induction cs as [|c cs IH]; [reflexivity|].
    cbn [existsb filter]. unfold hasText at 1.
    destruct (isText c); cbn [andb orb map filter]; [|exact IH].
    destruct (0 <? String.length (trim (textContent c))); [reflexivity|exact IH]. }
  destruct pieces as [|t ps] eqn:Hp.
  - left. now split.
  - right. split; [exact Hex|]. apply join_trimmed; [discriminate|exact Hall].
Qed.

(** X4.  The text of a node is absent exactly when no text-node child
    of the element has text other than white space; when it is present
    it is not empty and has no white space at its ends. *)
Theorem text_content_present
        (e : ElementData) (cs : list Node) (depth maxDepth : nat) (out : ElementNode) :
  extractElement (Element e cs) depth maxDepth = Some out ->
  (existsb hasText cs = false -> text_content out = None) /\
  (existsb hasText cs = true ->
   exists t, text_content out = Some t /\ t <> "" /\ trim t = t).
Proof.
  intros Hx. destruct (extractElement_fields _ _ _ _ _ Hx) as (_ & _ & Ht & _).
  rewrite Ht.
  destruct (directText_cases cs) as [(Hex & Hnil)|(Hex & Hne & Htrim)];
    rewrite Hex; split; try discriminate; intros _.
  - now rewrite Hnil.
  - exists (directText cs). destruct (directText cs); [contradiction|].
    cbn [truthy]. auto.
Qed.

(** X5.  In every node of the output a text that is present is not
    empty and is trimmed. *)
Theorem text_content_trimmed (root : Node) (depth maxDepth : nat) (out : ElementNode) :
  extractElement root depth maxDepth = Some out ->
  forall d n t, In n (nodesAt out d) ->
    text_content n = Some t -> t <> "" /\ trim t = t.
Proof.
  intros Hx d n t Hin. revert t.
  apply (every_node maxDepth
           (fun n => forall t, text_content n = Some t -> t <> "" /\ trim t = t))
    with (root := root) (depth := depth) (out := out) (d := d); auto.
  clear. intros e cs depth n Hx t.
  destruct (extractElement_fields _ _ _ _ _ Hx) as (_ & _ & Ht & _).
  rewrite Ht.
  destruct (directText_cases cs) as [(_ & Hnil)|(_ & Hne & Htrim)].
  - rewrite Hnil. discriminate.
  - destruct (truthy (directText cs)); [|discriminate].
    intros H. injection H as <-. auto.
Qed.

Lemma find_app {A : Type} (p : A -> bool) (l1 l2 : list A) :
  find p (l1 ++ l2)
  = match find p l1 with Some x => Some x | None => find p l2 end.
Proof.
  induction l1 as [|x l1 IH]; [reflexivity|].
  cbn [app find]. now destruct (p x).
Qed.

Lemma hasOwn_In (obj : list (string * string)) (key : string) :
  hasOwn obj key = true <-> In key (map fst obj).
Proof.
  unfold hasOwn. rewrite existsb_exists. split.
  - intros (kv & Hin & Heq). apply String.eqb_eq in Heq. subst key.
    now apply in_map.
  - intros Hin. apply in_map_iff in Hin as (kv & <- & Hin).
    exists kv. split; [exact Hin|apply String.eqb_refl].
Qed.

Lemma replaceValue_keys (obj : list (string * string)) (key val : string) :
  map fst (replaceValue obj key val) = map fst obj.
Proof.
  unfold replaceValue. rewrite map_map. apply map_ext.
  intros kv. now destruct (String.eqb (fst kv) key).
Qed.

Lemma getOwnProperty_replace_same (obj : list (string * string)) (key val : string) :
  In key (map fst obj) ->
  getOwnProperty (replaceValue obj key val) key = Some val.
Proof.
  unfold getOwnProperty, replaceValue.
  induction obj as [|[k v] obj IH]; cbn [map fst In find]; [intros []|].
  intros Hin. destruct (String.eqb_spec k key) as [->|Hne]; cbn [fst].
  - now rewrite String.eqb_refl.
  - destruct (String.eqb_spec k key); [contradiction|].
    apply IH. destruct Hin; [contradiction|assumption].
Qed.

Lemma getOwnProperty_replace_other (obj : list (string * string)) (key val k' : string) :
  key <> k' ->
  getOwnProperty (replaceValue obj key val) k' = getOwnProperty obj k'.
Proof.
  intros Hne. unfold getOwnProperty, replaceValue.
  induction obj as [|[k v] obj IH]; cbn [map fst find]; [reflexivity|].
  destruct (String.eqb_spec k key) as [->|Hk]; cbn [fst].
  - destruct (String.eqb_spec key k'); [contradiction|exact IH].
  - destruct (String.eqb_spec k k'); [reflexivity|exact IH].
Qed.

(** A new property goes between two parts of the object. *)
Lemma addProperty_split (obj : list (string * string)) (key val : string) :
  exists l1 l2, obj = (l1 ++ l2)%list /\
                addProperty obj key val = (l1 ++ (key, val) :: l2)%list.
Proof.
  unfold addProperty. destruct (arrayIndex key) as [idx|].
  - induction obj as [|p obj (l1 & l2 & Hobj & Hins)]; cbn [insertIndex].
    + now exists [], [].
    + destruct (arrayIndex (fst p)) as [i|]; [destruct (i <? idx)%N|].
      * exists (p :: l1), l2. cbn [app]. now rewrite Hins, <- Hobj.
      * now exists [], (p :: obj).
      * now exists [], (p :: obj).
  - exists obj, []. now rewrite app_nil_r.
Qed.

Lemma getOwnProperty_middle_same (l1 l2 : list (string * string)) (key val : string) :
  ~ In key (map fst l1) ->
  getOwnProperty (l1 ++ (key, val) :: l2) key = Some val.
Proof.
  intros Hnin. unfold getOwnProperty. rewrite find_app.
  destruct (find (fun kv => String.eqb (fst kv) key) l1) as [kv|] eqn:Hf.
  - apply find_some in Hf as (Hin & Heq). apply String.eqb_eq in Heq.
    exfalso. apply Hnin. rewrite <- Heq. now apply in_map.
  - cbn [find fst]. now rewrite String.eqb_refl.
Qed.

Lemma getOwnProperty_middle_other (l1 l2 : list (string * string)) (key val k' : string) :
  key <> k' ->
  getOwnProperty (l1 ++ (key, val) :: l2) k' = getOwnProperty (l1 ++ l2) k'.
Proof.
  intros Hne. unfold getOwnProperty. rewrite !find_app.
  destruct (find (fun kv => String.eqb (fst kv) k') l1); [reflexivity|].
  cbn [find fst]. now destruct (String.eqb_spec key k').
Qed.

Lemma hasOwn_false (obj : list (string * string)) (key : string) :
  hasOwn obj key = false -> ~ In key (map fst obj).
Proof.
  intros H Hin. apply hasOwn_In in Hin. congruence.
Qed.

Lemma getOwnProperty_set_same (obj : list (string * string)) (k v : string) :
  k <> "__proto__" -> getOwnProperty (setProperty obj k v) k = Some v.
Proof.
  intros Hk. unfold setProperty.
  destruct (String.eqb_spec k "__proto__"); [contradiction|].
  destruct (hasOwn obj k) eqn:Hown.
  - apply getOwnProperty_replace_same. now apply hasOwn_In.
  - apply hasOwn_false in Hown.
    destruct (addProperty_split obj k v) as (l1 & l2 & Hobj & ->).
    apply getOwnProperty_middle_same. intros Hin. apply Hown.
    rewrite Hobj, map_app. apply in_or_app. now left.
Qed.

Lemma getOwnProperty_set_other (obj : list (string * string)) (k v key : string) :
  k <> key -> getOwnProperty (setProperty obj k v) key = getOwnProperty obj key.
Proof.
  intros Hne. unfold setProperty.
  destruct (String.eqb k "__proto__"); [reflexivity|].
  destruct (hasOwn obj k).
  - now apply getOwnProperty_replace_other.
  - destruct (addProperty_split obj k v) as (l1 & l2 & Hobj & ->).
    rewrite Hobj. now apply getOwnProperty_middle_other.
Qed.

Lemma setProperty_keys (obj : list (string * string)) (k v x : string) :
  In x (map fst (setProperty obj k v)) ->
  (x = k /\ k <> "__proto__") \/ In x (map fst obj).
Proof.
  unfold setProperty.
  destruct (String.eqb_spec k "__proto__") as [|Hk]; [now right|].
  destruct (hasOwn obj k).
  - rewrite replaceValue_keys. now right.
  - destruct (addProperty_split obj k v) as (l1 & l2 & Hobj & ->).
    rewrite Hobj, !map_app. cbn [map fst]. intros Hin.
    apply in_app_or in Hin as [Hin|[<-|Hin]]; [right|now left|right];
      apply in_or_app; auto.
Qed.

Lemma setProperty_NoDup (obj : list (string * string)) (k v : string) :
  NoDup (map fst obj) -> NoDup (map fst (setProperty obj k v)).
Proof.
  intros Hnd. unfold setProperty.
  destruct (String.eqb k "__proto__"); [exact Hnd|].
  destruct (hasOwn obj k) eqn:Hown.
  - now rewrite replaceValue_keys.
  - apply hasOwn_false in Hown.
    destruct (addProperty_split obj k v) as (l1 & l2 & Hobj & ->).
    rewrite Hobj in Hnd, Hown. rewrite map_app in *. cbn [map fst].
    apply (Permutation_NoDup (Permutation_middle _ _ _)).
    now constructor.
Qed.

Lemma setProperty_new (obj : list (string * string)) (k v : string) :
  k <> "__proto__" -> arrayIndex k = None -> ~ In k (map fst obj) ->
  setProperty obj k v = (obj ++ [(k, v)])%list.
Proof.
  intros Hk Hidx Hnin. unfold setProperty, addProperty.
  destruct (String.eqb_spec k "__proto__"); [contradiction|].
  destruct (hasOwn obj k) eqn:Hown; [apply hasOwn_In in Hown; contradiction|].
  now rewrite Hidx.
Qed.

(** The array indices come first, in ascending order, and [__proto__]
    makes no property. *)
Example attributes_of_numbered :
  option_map attributes
    (extractElement (Element Fixtures.numberedAttrs []) 0 defaultMaxDepth)
  = Some [("2", ""); ("10", ""); ("b", "")].
Proof. vm_compute. reflexivity. Qed.

(** X6.  The attribute object of a node has each name once and never
    has an own property [__proto__]; for every other name its own
    property holds the value of the last attribute of the element with
    that name, and there is none when the element has no such
    attribute. *)
Theorem attributes_last_wins
        (e : ElementData) (cs : list Node) (depth maxDepth : nat) (out : ElementNode) :
  extractElement (Element e cs) depth maxDepth = Some out ->
  NoDup (map fst (attributes out)) /\
  ~ In "__proto__" (map fst (attributes out)) /\
  forall key, key <> "__proto__" ->
    getOwnProperty (attributes out) key = lastAttr (Dom.attributes e) key.
Proof.
  intros Hx. destruct (extractElement_fields _ _ _ _ _ Hx) as (_ & Ha & _).
  rewrite Ha. clear. split; [|split].
  - assert (H : forall l obj, NoDup (map fst obj) ->
                 NoDup (map fst (fold_left
                   (fun obj attr => setProperty obj (name attr) (value attr)) l obj))).
    { induction l as [|a l IH]; intros obj Hnd; [exact Hnd|].
      cbn [fold_left]. apply IH. now apply setProperty_NoDup. }
    apply H. constructor.
  - assert (H : forall l obj, ~ In "__proto__" (map fst obj) ->
                 ~ In "__proto__" (map fst (fold_left
                   (fun obj attr => setProperty obj (name attr) (value attr)) l obj))).
    { induction l as [|a l IH]; intros obj Hnin; [exact Hnin|].
      cbn [fold_left]. apply IH. intros Hin.
      apply setProperty_keys in Hin as [(Heq & Hne)|Hin]; [|contradiction].
      now apply Hne. }
    apply H. intros [].
  - intros key Hkey.
    assert (H : forall l obj,
               getOwnProperty (fold_left
                 (fun obj attr => setProperty obj (name attr) (value attr)) l obj) key
               = match lastAttr l key with
                 | Some v => Some v
                 | None => getOwnProperty obj key
                 end).
    { induction l as [|a l IH]; intros obj; [reflexivity|].
      cbn [fold_left]. rewrite IH. unfold lastAttr. cbn [rev].
      rewrite find_app.
      destruct (find (fun a0 => String.eqb (name a0) key) (rev l)); [reflexivity|].
      cbn [find option_map].
      destruct (String.eqb_spec (name a) key) as [Heq|Hne]; cbn [option_map].
      - rewrite <- Heq in *. now apply getOwnProperty_set_same.
      - now apply getOwnProperty_set_other. }
    rewrite H. now destruct (lastAttr (Dom.attributes e) key).
Qed.

(** X7.  When the attributes of the element have distinct names, none
    of them [__proto__] and none an array index, the attribute object
    lists them as they are, in their order. *)
Theorem attributes_copied_verbatim
        (e : ElementData) (cs : list Node) (depth maxDepth : nat) (out : ElementNode) :
  extractElement (Element e cs) depth maxDepth = Some out ->
  NoDup (map name (Dom.attributes e)) ->
  (forall a, In a (Dom.attributes e) ->
     name a <> "__proto__" /\ arrayIndex (name a) = None) ->
  attributes out = map (fun a => (name a, value a)) (Dom.attributes e).
Proof.
  intros Hx. destruct (extractElement_fields _ _ _ _ _ Hx) as (_ & Ha & _).
  rewrite Ha. clear. intros Hnd Hplain.
  assert (H : forall l obj,
             NoDup (map name l) ->
             (forall a, In a l ->
                name a <> "__proto__" /\ arrayIndex (name a) = None) ->
             (forall a, In a l -> ~ In (name a) (map fst obj)) ->
             fold_left (fun obj attr => setProperty obj (name attr) (value attr)) l obj
             = (obj ++ map (fun a => (name a, value a)) l)%list).
  { induction l as [|a l IH]; intros obj Hl Hpl Hfresh; cbn [fold_left map].
    - now rewrite app_nil_r.
    - inversion Hl as [|? ? Hnin Hl']; subst.
      destruct (Hpl a (or_introl eq_refl)) as (Hproto & Hidx).
      rewrite setProperty_new; [|exact Hproto|exact Hidx|apply Hfresh; now left].
      rewrite IH; [now rewrite <- app_assoc|exact Hl'| |].
      + intros b Hb. apply Hpl. now right.
      + intros b Hb Hin. rewrite map_app in Hin.
        apply in_app_or in Hin as [Hin|[Heq|[]]].
        * apply (Hfresh b); [now right|exact Hin].
        * cbn [fst] in Heq. apply Hnin. rewrite Heq. now apply in_map. }
  apply (H _ [] Hnd Hplain). intros a _ [].
Qed.

Lemma lowerChar_idempotent (c : ascii) : lowerChar (lowerChar c) = lowerChar c.
Proof.
  destruct c as [b0 b1 b2 b3 b4 b5 b6 b7];
    destruct b0, b1, b2, b3, b4, b5, b6, b7; reflexivity.
Qed.

Lemma toLowerCase_idempotent (s : string) :
  toLowerCase (toLowerCase s) = toLowerCase s.
Proof.
  induction s as [|c s IH]; [reflexivity|].
  cbn [toLowerCase]. now rewrite lowerChar_idempotent, IH.
Qed.

(** X8.  Every node of the output has a lower-case tag name and is
    marked not interactive. *)
Theorem node_tag_and_flag (root : Node) (depth maxDepth : nat) (out : ElementNode) :
  extractElement root depth maxDepth = Some out ->
  forall d n, In n (nodesAt out d) ->
    toLowerCase (tag_name n) = tag_name n /\ is_interactive n = false.
Proof.
  intros Hx d n Hin.
  apply (every_node maxDepth
           (fun n => toLowerCase (tag_name n) = tag_name n /\ is_interactive n = false))
    with (root := root) (depth := depth) (out := out) (d := d); auto.
  clear. intros e cs depth n Hx.
  destruct (extractElement_fields _ _ _ _ _ Hx) as (Htag & _ & _ & Hi).
  rewrite Htag, Hi. split; [apply toLowerCase_idempotent|reflexivity].
Qed.

(** X9.  A limit that is not lower than the depth of the content of
    the tree cuts nothing: every higher limit gives the same result. *)
Theorem limit_above_content_depth (maxDepth maxDepth' : nat) (root : Node) :
  forall depth,
    depth + contentDepth root <= maxDepth -> maxDepth <= maxDepth' ->
    extractElement root depth maxDepth' = extractElement root depth maxDepth.
Proof.
  induction root as [e cs IH|t|t] using Node_tree_ind; intros depth Hd Hm;
    [|now rewrite !extractElement_no_element..].
  rewrite !extractElement_element.
  destruct (Nat.ltb_spec maxDepth depth) as [Hlt|_]; [lia|].
  destruct (Nat.ltb_spec maxDepth' depth) as [Hlt|_]; [lia|].
  destruct (includes skippedTags (toLowerCase (tagName e))); [reflexivity|].
  assert (Hkids : flat_map (childResult (depth + 1) maxDepth') (filter isElement cs)
                  = flat_map (childResult (depth + 1) maxDepth) (filter isElement cs)).
  { cbn [contentDepth] in Hd.
    induction IH as [|c cs Hc _ IHcs]; [reflexivity|].
    cbn [fold_right] in Hd. cbn [filter].
    destruct (isContent c) eqn:Hcc.
    - assert (Hel : isElement c = true)
        by (unfold isContent in Hcc; now apply andb_true_iff in Hcc).
      rewrite Hel. cbn [flat_map]. rewrite IHcs by lia.
      unfold childResult at 1 3. rewrite Hc by lia. reflexivity.
    - destruct c as [e' ks|t|t]; cbn [isElement]; try (apply IHcs; lia).
      cbn [flat_map]. rewrite IHcs by lia.
      unfold isContent in Hcc. cbn [isElement lowerTag andb] in Hcc.
      apply negb_false_iff in Hcc.
      unfold childResult at 1 3. now rewrite !extractElement_skipped. }
  now rewrite Hkids.
Qed.

(** X10.  The script never returns [null]: for every document the
    result is an object whose first property is a tag name, [body] or
    [frameset]. *)
Theorem extractDom_is_object (document : Document) :
  exists tag rest,
    extractDom document = JsObject (("tag_name", JsStr tag) :: rest) /\
    (tag = "body" \/ tag = "frameset").
Proof.
  unfold extractDom.
  destruct (Dom.body document) as [[p b]|] eqn:Hb.
  - unfold Dom.body in Hb.
    destruct (documentElement document) as [[e cs|t|t]|]; try discriminate.
    destruct (lowerTag (Element e cs) =? "html")%string; [|discriminate].
    destruct (find _ cs) as [b'|] eqn:Hf; [|discriminate].
    injection Hb as _ <-.
    apply find_some in Hf as (_ & Hp).
    apply andb_true_iff in Hp as (Hel & Htag).
    destruct b' as [e' ks|t|t]; try discriminate.
    rewrite extractElement_element.
    cbn [lowerTag] in Htag.
    apply orb_true_iff in Htag as [Htag|Htag];
      apply String.eqb_eq in Htag; rewrite Htag; cbn;
      eexists _, _; (split; [reflexivity|tauto]).
  - eexists _, _. split; [reflexivity|now left].
Qed.

(** The [span] of the sample body, at depth 2, has its node. *)
Lemma snapshot_complete_witness :
  exists out,
    extractElement Fixtures.bodyMixed 0 defaultMaxDepth = Some out /\
    In Fixtures.hiddenSpan (contentElementsAt Fixtures.bodyMixed 2) /\
    exists n, In n (nodesAt out 2) /\
              extractElement Fixtures.hiddenSpan (0 + 2) defaultMaxDepth = Some n.
Proof.
  eexists. split; [reflexivity|].
  split; [cbn; left; reflexivity|].
  apply (snapshot_complete defaultMaxDepth 2 Fixtures.bodyMixed 0).
  - reflexivity.
  - cbn. left. reflexivity.
  - unfold defaultMaxDepth. lia.
Defined.

(** The children of the sample body: the [div], not the [style]. *)
Lemma children_in_document_order_witness :
  exists out,
    extractElement (Element (Fixtures.plainData "BODY") Fixtures.mixedChildren)
      0 defaultMaxDepth = Some out /\
    (0 < defaultMaxDepth ->
     map Some (children out)
     = map (fun c => extractElement c (0 + 1) defaultMaxDepth)
           (filter isContent Fixtures.mixedChildren)) /\
    (0 = defaultMaxDepth -> children out = []).
Proof.
  eexists. split; [reflexivity|].
  apply (children_in_document_order (Fixtures.plainData "BODY")
           Fixtures.mixedChildren 0 defaultMaxDepth).
  reflexivity.
Defined.

(** The text of an element with two text nodes that have text. *)
Lemma text_content_present_witness :
  exists out,
    extractElement (Element (Fixtures.plainData "P") Fixtures.textChildren)
      0 defaultMaxDepth = Some out /\
    (existsb hasText Fixtures.textChildren = false -> text_content out = None) /\
    (existsb hasText Fixtures.textChildren = true ->
     exists t, text_content out = Some t /\ t <> "" /\ trim t = t).
Proof.
  eexists. split; [reflexivity|].
  apply (text_content_present (Fixtures.plainData "P")
           Fixtures.textChildren 0 defaultMaxDepth).
  reflexivity.
Defined.

(** The texts of the nodes of the sample body. *)
Lemma text_content_trimmed_witness :
  exists out,
    extractElement Fixtures.bodyMixed 0 defaultMaxDepth = Some out /\
    forall d n t, In n (nodesAt out d) ->
      text_content n = Some t -> t <> "" /\ trim t = t.
Proof.
  eexists. split; [reflexivity|].
  apply (text_content_trimmed Fixtures.bodyMixed 0 defaultMaxDepth).
  reflexivity.
Defined.

(** With [id] given twice the object holds the second value. *)
Lemma attributes_last_wins_witness :
  exists out,
    extractElement (Element Fixtures.repeatedAttrs []) 0 defaultMaxDepth = Some out /\
    NoDup (map fst (attributes out)) /\
    ~ In "__proto__" (map fst (attributes out)) /\
    forall key, key <> "__proto__" ->
      getOwnProperty (attributes out) key
      = lastAttr (Dom.attributes Fixtures.repeatedAttrs) key.
Proof.
  eexists. split; [reflexivity|].
  apply (attributes_last_wins Fixtures.repeatedAttrs [] 0 defaultMaxDepth).
  reflexivity.
Defined.

(** Two attributes with different names are copied in their order. *)
Lemma attributes_copied_verbatim_witness :
  exists out,
    extractElement (Element Fixtures.distinctAttrs []) 0 defaultMaxDepth = Some out /\
    attributes out = [("id", "a"); ("class", "b")].
Proof.
  eexists. split; [reflexivity|].
  apply (attributes_copied_verbatim Fixtures.distinctAttrs [] 0 defaultMaxDepth).
  - reflexivity.
  - cbn. repeat constructor; cbn; intuition discriminate.
  - intros a [<-|[<-|[]]]; (split; [discriminate|reflexivity]).
Defined.

(** The tags and flags of the nodes of the sample body. *)
Lemma node_tag_and_flag_witness :
  exists out,
    extractElement Fixtures.bodyMixed 0 defaultMaxDepth = Some out /\
    forall d n, In n (nodesAt out d) ->
      toLowerCase (tag_name n) = tag_name n /\ is_interactive n = false.
Proof.
  eexists. split; [reflexivity|].
  apply (node_tag_and_flag Fixtures.bodyMixed 0 defaultMaxDepth).
  reflexivity.
Defined.

(** The sample body has content depth 2: the limits 2 and 10 agree. *)
Lemma limit_above_content_depth_witness :
  extractElement Fixtures.bodyMixed 0 defaultMaxDepth
  = extractElement Fixtures.bodyMixed 0 2.
Proof.
  apply (limit_above_content_depth 2 defaultMaxDepth Fixtures.bodyMixed 0).
  - apply Nat.leb_le. reflexivity.
  - unfold defaultMaxDepth. lia.
Defined.

End SnapshotCoverage.

(* ================================================================= *)
(** ** Further properties of the Markdown renderer *)

Section MarkdownCoverage.
Import JsString Dom Markdown.

Lemma startsWithTriple_first (a : ascii) (r : string) :
  Ascii.eqb a LF = false -> startsWithTriple (String a r) = false.
Proof.
  intros H. destruct r as [|b [|c r]]; cbn [startsWithTriple];
    now rewrite ?H.
Qed.

Lemma startsWithTriple_second (a b : ascii) (r : string) :
  Ascii.eqb b LF = false -> startsWithTriple (String a (String b r)) = false.
Proof.
  intros H. destruct r as [|c r]; cbn [startsWithTriple];
    now rewrite ?H, ?andb_false_r.
Qed.

Lemma startsWithTriple_third (a b c : ascii) (r : string) :
  Ascii.eqb c LF = false ->
  startsWithTriple (String a (String b (String c r))) = false.
Proof. intros H. cbn [startsWithTriple]. now rewrite H, andb_false_r. Qed.

Lemma containsTriple_suffix (a b : string) :
  containsTriple (a ++ b) = false -> containsTriple b = false.
Proof.
  induction a as [|c a IH]; [trivial|].
  cbn [append containsTriple]. intros H.
  apply orb_false_iff in H as [_ H]. auto.
Qed.

Lemma containsTriple_prefix (a b : string) :
  containsTriple (a ++ b) = false -> containsTriple a = false.
Proof.
  induction a as [|c a IH]; [reflexivity|].
  cbn [append containsTriple]. intros H.
  apply orb_false_iff in H as [Hs H]. rewrite (IH H), orb_false_r.
  destruct a as [|x [|y a]]; try reflexivity. exact Hs.
Qed.

Lemma trimStart_suffix (s : string) : exists w, s = w ++ trimStart s.
Proof.
  induction s as [|c s (w & IH)]; [now exists ""|].
  cbn [trimStart]. destruct (isWhiteSpace c).
  - exists (String c w). cbn [append]. now rewrite <- IH.
  - now exists "".
Qed.

Lemma trimEnd_prefix (s : string) : exists w, s = trimEnd s ++ w.
Proof.
  induction s as [|c s (w & IH)]; [now exists ""|].
  cbn [trimEnd]. destruct (trimEnd s) as [|c' t].
  - destruct (isWhiteSpace c).
    + now exists (String c s).
    + exists w. cbn [append] in *. now rewrite <- IH.
  - exists w. cbn [append] in *. now rewrite <- IH.
Qed.

Lemma containsTriple_trim (s : string) :
  containsTriple s = false -> containsTriple (trim s) = false.
Proof.
  intros H. unfold trim.
  destruct (trimStart_suffix s) as (w & Hw). rewrite Hw in H.
  apply containsTriple_suffix in H.
  destruct (trimEnd_prefix (trimStart s)) as (w' & Hw'). rewrite Hw' in H.
  now apply containsTriple_prefix in H.
Qed.

(** Whatever number of line feeds is pending, the result of the
    replacement holds no three line feeds in a row. *)
Lemma collapse_no_triple (s : string) :
  forall run, containsTriple (collapse s run) = false.
Proof.
  induction s as [|c s IH]; intros run; cbn [collapse].
  - destruct run as [|[|[|run]]]; reflexivity.
  - destruct (Ascii.eqb c LF) eqn:Hc; [apply IH|].
    assert (Hrest : containsTriple (String c (collapse s 0)) = false).
    { cbn [containsTriple]. now rewrite (startsWithTriple_first _ _ Hc), IH. }
    destruct run as [|[|[|run]]]; cbn [emitRun Nat.leb repeat String.concat append nl];
      try exact Hrest; cbn [containsTriple];
      rewrite ?(startsWithTriple_second _ _ _ Hc),
              ?(startsWithTriple_third _ _ _ _ Hc), ?orb_false_l;
      try exact Hrest;
      cbn [containsTriple];
      now rewrite ?(startsWithTriple_second _ _ _ Hc), ?orb_false_l.
Qed.

(** A string without three line feeds in a row, after at most two
    pending line feeds, is left as it is. *)
Lemma collapse_clean (s : string) :
  forall run,
    run <= 2 ->
    containsTriple (emitRun run ++ s) = false ->
    collapse s run = emitRun run ++ s.
Proof.
  induction s as [|c s IH]; intros run Hrun Hclean; cbn [collapse].
  - now rewrite append_nil_r.
  - destruct (Ascii.eqb c LF) eqn:Hc.
    + apply Ascii.eqb_eq in Hc. subst c.
      destruct run as [|[|[|run]]]; [| |discriminate Hclean|lia];
        (rewrite IH; [reflexivity|lia|exact Hclean]).
    + rewrite (IH 0); [reflexivity|lia|].
      apply containsTriple_suffix in Hclean.
      cbn [containsTriple] in Hclean.
      now apply orb_false_iff in Hclean as [_ Hclean].
Qed.

(** X11.  After the replacement the text holds no three line feeds in
    a row. *)
Theorem collapseNewlines_no_triple (s : string) :
  containsTriple (collapseNewlines s) = false.
Proof. apply collapse_no_triple. Qed.

(** X12.  The replacement leaves a text without three line feeds in a
    row as it is, and so doing it twice is the same as doing it once. *)
Theorem collapseNewlines_idempotent (s : string) :
  (containsTriple s = false -> collapseNewlines s = s) /\
  collapseNewlines (collapseNewlines s) = collapseNewlines s.
Proof.
  assert (H : forall t, containsTriple t = false -> collapseNewlines t = t)
    by (intros t Ht; apply (collapse_clean t 0); [lia|exact Ht]).
  split; [apply H|]. apply H, collapse_no_triple.
Qed.

(** X13.  The content that the script returns holds no three line
    feeds in a row and has no white space at its ends. *)
Theorem content_normalised (document : Document) :
  containsTriple (content (extractContent document)) = false /\
  trim (content (extractContent document)) = content (extractContent document).
Proof.
  unfold extractContent. cbn [content]. split.
  - apply containsTriple_trim, collapse_no_triple.
  - apply trim_idempotent.
Qed.

(** X14.  The flat text of a node has no white space at its ends. *)
Theorem getTextContent_trimmed (n : Node) :
  trim (getTextContent n) = getTextContent n.
Proof.
  destruct n as [e cs|d|d]; cbn [getTextContent]; apply trim_idempotent.
Qed.

Lemma concatAll_cons (x : string) (l : list string) :
  concatAll (x :: l) = x ++ concatAll l.
Proof. reflexivity. Qed.

Lemma concatAll_app (l1 l2 : list string) :
  concatAll (l1 ++ l2) = concatAll l1 ++ concatAll l2.
Proof.
  induction l1 as [|x l1 IH]; [reflexivity|].
  cbn [app concatAll fold_right]. fold (concatAll (l1 ++ l2)) (concatAll l1).
  now rewrite IH, append_assoc.
Qed.

(** X15.  Comments and script, style and noscript elements, at any
    depth below a node, have no part in its flat text. *)
Theorem getTextContent_readPart (n : Node) :
  getTextContent (readPart n) = getTextContent n.
Proof.
  induction n as [e cs IH|d|d] using Node_tree_ind; try reflexivity.
  cbn [readPart]. rewrite !getTextContent_element. f_equal.
  induction IH as [|c cs Hc _ IHcs]; [reflexivity|].
  cbn [flat_map map]. rewrite map_app, concatAll_app, IHcs.
  cbn [concatAll fold_right]. f_equal.
  destruct c as [e' ks|t|t]; cbn [isRead]; try reflexivity.
  - destruct (includes textSkippedTags (lowerTag (Element e' ks))) eqn:Hs;
      cbn [negb map concatAll fold_right flatPiece].
    + now rewrite Hs.
    + cbn [readPart] in *. cbn [flatPiece lowerTag] in *.
      rewrite Hs, Hc. now rewrite append_nil_r.
  - cbn [readPart map concatAll fold_right flatPiece].
    now rewrite append_nil_r.
Qed.

(** X16.  The rendering of a node depends on its parent only through
    whether the parent is a [pre] element. *)
Theorem parent_matters_for_pre_only (p1 p2 : option string) (n : Node) :
  inPre p1 = inPre p2 -> htmlToMarkdown p1 n = htmlToMarkdown p2 n.
Proof.
  intros H. destruct n as [e cs|d|d]; try reflexivity.
  cbn [htmlToMarkdown].
  destruct p1 as [t1|], p2 as [t2|]; cbn [inPre] in H.
  - now rewrite H.
  - now rewrite H.
  - now rewrite <- H.
  - reflexivity.
Qed.

(** An element whose tag has no rule of its own is rendered as the
    renderings of its child nodes, one after the other. *)
Lemma htmlToMarkdown_container (parent : option string) (e : ElementData) (cs : list Node) :
  includes ruleTags (toLowerCase (tagName e)) = false ->
  htmlToMarkdown parent (Element e cs)
  = concatAll (map (htmlToMarkdown (Some (tagName e))) cs).
Proof.
  intros H.
  cbn [includes ruleTags skippedTags app existsb] in H.
  repeat match type of H with
         | (_ || _) = false => apply orb_false_iff in H as [? H]
         end.
  cbn [htmlToMarkdown lowerTag includes skippedTags existsb].
  repeat match goal with
         | E : (_ =? _)%string = false |- _ => rewrite E; clear E
         end.
  cbn [orb]. now rewrite append_loop.
Qed.

Lemma htmlToMarkdown_silent (parent : option string) (c : Node) :
  isSilent c = true -> htmlToMarkdown parent c = "".
Proof.
  destruct c as [e cs|d|d]; cbn [isSilent]; intros H.
  - cbn [htmlToMarkdown]. now rewrite H.
  - cbn [htmlToMarkdown lowerTag]. apply negb_true_iff in H.
    cbn. now rewrite H.
  - reflexivity.
Qed.

(** X17.  In an element whose tag has no rule of its own, the
    comments, the text nodes of white space only and the elements with
    a skipped tag add nothing to the rendering. *)
Theorem silent_children_add_nothing
        (parent : option string) (e : ElementData) (cs : list Node) :
  includes ruleTags (toLowerCase (tagName e)) = false ->
  htmlToMarkdown parent (Element e cs)
  = htmlToMarkdown parent (Element e (filter (fun c => negb (isSilent c)) cs)).
Proof.
  intros H. rewrite !htmlToMarkdown_container by exact H. clear H.
  induction cs as [|c cs IH]; [reflexivity|].
  cbn [filter map]. rewrite concatAll_cons, IH.
  destruct (isSilent c) eqn:Hs; cbn [negb map].
  - now rewrite (htmlToMarkdown_silent _ _ Hs).
  - now rewrite concatAll_cons.
Qed.

(** X18.  An unordered list is rendered as one line for each element
    child that is a list item, a dash, a space and the flat text of the
    item, in order, and a line feed at the end. *)
Theorem unordered_list_lines
        (parent : option string) (e : ElementData) (cs : list Node) :
  toLowerCase (tagName e) = "ul" ->
  htmlToMarkdown parent (Element e cs)
  = concatAll (map bulletItemLine (children (Element e cs))) ++ nl.
Proof.
  intros Htag.
  cbn [htmlToMarkdown lowerTag]. rewrite Htag.
  cbn - [forEach children getTextContent ofNat nl lowerTag].
  unfold forEach.
  rewrite (forEachFrom_lines _ (fun _ => bulletItemLine)).
  - cbn [fst snd append]. now rewrite map_snd_indexed.
  - intros i text li _. unfold bulletItemLine.
    destruct (lowerTag li =? "li")%string; [reflexivity|].
    now rewrite append_nil_r.
Qed.

Lemma join_head (sep a w : string) (rest : list string) :
  join sep ((a ++ w) :: rest) = a ++ join sep (w :: rest).
Proof.
  unfold join. destruct rest; cbn [String.concat]; [reflexivity|].
  now rewrite append_assoc.
Qed.

Lemma split_cons (sep : ascii) (s : string) :
  exists w ws, split sep s = w :: ws.
Proof.
  destruct s as [|c s]; cbn [split]; [now eexists _, _|].
  destruct (Ascii.eqb c sep); [now eexists _, _|].
  destruct (split sep s); now eexists _, _.
Qed.

Lemma split_lines (s : string) :
  match split LF s with
  | w :: ws => join nl (w :: map (fun line => "> " ++ line) ws)
  | [] => ""
  end = afterEachLF "> " s.
Proof.
  induction s as [|c s IH]; [reflexivity|].
  cbn [split afterEachLF].
  destruct (Ascii.eqb c LF) eqn:Hc.
  - apply Ascii.eqb_eq in Hc. subst c.
    destruct (split_cons LF s) as (w & ws & Hs). rewrite Hs in *.
    cbn [map]. rewrite <- IH, <- (join_head nl "> " w).
    reflexivity.
  - destruct (split_cons LF s) as (w & ws & Hs). rewrite Hs in *.
    rewrite <- IH.
    change (String c w) with (String c "" ++ w).
    now rewrite join_head.
Qed.

(** X19.  A block quote is rendered as its flat text with [> ] put at
    its start and after each of its line feeds, and two line feeds at
    the end. *)
Theorem blockquote_lines
        (parent : option string) (e : ElementData) (cs : list Node) :
  toLowerCase (tagName e) = "blockquote" ->
  htmlToMarkdown parent (Element e cs)
  = "> " ++ afterEachLF "> " (getTextContent (Element e cs)) ++ nl ++ nl.
Proof.
  intros Htag.
  cbn [htmlToMarkdown lowerTag]. rewrite Htag.
  cbn - [split join getTextContent nl LF map append].
  rewrite <- split_lines.
  destruct (split_cons LF (getTextContent (Element e cs))) as (w & ws & Hs).
  rewrite Hs. cbn [map]. rewrite (join_head nl "> " w).
  now rewrite !append_assoc.
Qed.

(** X20.  In an element whose tag has no rule of its own the rendering
    of child nodes put one after the other is the rendering of the
    first ones followed by the rendering of the others. *)
Theorem container_rendering_appends
        (parent : option string) (e : ElementData) (cs1 cs2 : list Node) :
  includes ruleTags (toLowerCase (tagName e)) = false ->
  htmlToMarkdown parent (Element e (cs1 ++ cs2))
  = htmlToMarkdown parent (Element e cs1) ++ htmlToMarkdown parent (Element e cs2).
Proof.
  intros H. rewrite !htmlToMarkdown_container by exact H.
  now rewrite map_app, concatAll_app.
Qed.

(** Two paragraphs with one empty line between are left as they are. *)
Lemma collapseNewlines_idempotent_witness :
  containsTriple Fixtures.twoParagraphs = false /\
  collapseNewlines Fixtures.twoParagraphs = Fixtures.twoParagraphs.
Proof.
  split; [reflexivity|].
  apply (proj1 (collapseNewlines_idempotent Fixtures.twoParagraphs)).
  reflexivity.
Defined.

(** Inline code below a [div] and inline code without a parent. *)
Lemma parent_matters_for_pre_only_witness :
  htmlToMarkdown (Some "DIV") Fixtures.codeElement
  = htmlToMarkdown None Fixtures.codeElement.
Proof.
  apply (parent_matters_for_pre_only (Some "DIV") None Fixtures.codeElement).
  reflexivity.
Defined.

(** A [div] with a text node of spaces, a comment and a script. *)
Lemma silent_children_add_nothing_witness :
  htmlToMarkdown None (Element (Fixtures.plainData "DIV") Fixtures.mostlySilent)
  = htmlToMarkdown None (Element (Fixtures.plainData "DIV") [Text "a"]).
Proof.
  apply (silent_children_add_nothing None (Fixtures.plainData "DIV")
           Fixtures.mostlySilent).
  reflexivity.
Defined.

(** The list of two items. *)
Lemma unordered_list_lines_witness :
  htmlToMarkdown None (Element (Fixtures.plainData "UL") Fixtures.bulletItems)
  = concatAll
      (map bulletItemLine
         (children (Element (Fixtures.plainData "UL") Fixtures.bulletItems)))
    ++ nl.
Proof.
  apply (unordered_list_lines None (Fixtures.plainData "UL") Fixtures.bulletItems).
  reflexivity.
Defined.

(** A quote of two lines. *)
Lemma blockquote_lines_witness :
  htmlToMarkdown None
    (Element (Fixtures.plainData "BLOCKQUOTE") Fixtures.quoteChildren)
  = "> " ++ afterEachLF "> "
      (getTextContent
         (Element (Fixtures.plainData "BLOCKQUOTE") Fixtures.quoteChildren))
    ++ nl ++ nl.
Proof.
  apply (blockquote_lines None (Fixtures.plainData "BLOCKQUOTE")
           Fixtures.quoteChildren).
  reflexivity.
Defined.

(** A [div] with a heading and a paragraph. *)
Lemma container_rendering_appends_witness :
  htmlToMarkdown None
    (Element (Fixtures.plainData "DIV")
       ([Fixtures.el "H1" [] [Text "Title"]] ++ [Fixtures.el "P" [] [Text "Hello"]]))
  = htmlToMarkdown None
      (Element (Fixtures.plainData "DIV") [Fixtures.el "H1" [] [Text "Title"]])
    ++ htmlToMarkdown None
         (Element (Fixtures.plainData "DIV") [Fixtures.el "P" [] [Text "Hello"]]).
Proof.
  apply (container_rendering_appends None (Fixtures.plainData "DIV")).
  reflexivity.
Defined.

End MarkdownCoverage.

(* ================================================================= *)
(** ** The renderer returns *)

Section RendererReturns.
Import JsString Dom Markdown.
Local Open Scope outcome_scope.

Lemma within_returned {A : Type} (v : A) (short : Prop) :
  within (Returned v) v short.
Proof. now left. Qed.

Lemma within_bind {A B : Type} (o : Outcome A) (k : A -> Outcome B)
      (v : A) (w : B) (short : Prop) :
  within o v short -> within (k v) w short -> within (bind o k) w short.
Proof.
  intros [->|(-> & Hs)] Hk; [exact Hk|]. right. now split.
Qed.

Lemma within_weaken {A : Type} (o : Outcome A) (v : A) (short short' : Prop) :
  (short -> short') -> within o v short -> within o v short'.
Proof. intros Hi [H|(H & Hs)]; [now left|right; auto]. Qed.

Lemma forOfC_thrown (step : string -> Node -> Outcome string)
      (nodes : list Node) (e : Error) :
  fold_left (fun acc child => text <- acc ;; step text child) nodes (Thrown e)
  = Thrown e.
Proof. induction nodes as [|c nodes IH]; [reflexivity|exact IH]. Qed.

Lemma forOfC_within (stepC : string -> Node -> Outcome string)
      (step : string -> Node -> string) (short : Prop) (nodes : list Node) :
  (forall child, In child nodes ->
     forall text, within (stepC text child) (step text child) short) ->
  forall start, within (forOfC stepC nodes start) (fold_left step nodes start) short.
Proof.
  unfold forOfC. induction nodes as [|c nodes IH]; intros Hstep start.
  - now left.
  - cbn [fold_left bind].
    destruct (Hstep c (or_introl eq_refl) start) as [->|(-> & Hs)].
    + apply IH. intros child Hin. apply Hstep. now right.
    + right. split; [apply forOfC_thrown|exact Hs].
Qed.

Lemma mapC_within {A B : Type} (f : A -> Outcome B) (g : A -> B)
      (short : Prop) (arr : list A) :
  (forall x, In x arr -> within (f x) (g x) short) ->
  within (mapC f arr) (map g arr) short.
Proof.
  induction arr as [|x arr IH]; intros Hf; [now left|].
  cbn [mapC map].
  apply within_bind with (v := g x); [apply Hf; now left|].
  apply within_bind with (v := map g arr);
    [apply IH; intros y Hy; apply Hf; now right|].
  now left.
Qed.

Lemma forEachFromC_within {A St : Type} (f : St -> A -> nat -> Outcome St)
      (g : St -> A -> nat -> St) (short : Prop) (arr : list A) :
  (forall x, In x arr -> forall s i, within (f s x i) (g s x i) short) ->
  forall index s,
    within (forEachFromC f arr index s) (forEachFrom g arr index s) short.
Proof.
  induction arr as [|x arr IH]; intros Hf index s; [now left|].
  cbn [forEachFromC forEachFrom].
  apply within_bind with (v := g s x index); [apply Hf; now left|].
  apply IH. intros y Hy. apply Hf. now right.
Qed.

Lemma nesting_child (e : ElementData) (cs : list Node) (c : Node) :
  In c cs -> nesting c < nesting (Element e cs).
Proof.
  cbn [nesting]. induction cs as [|x cs IH]; [intros []|].
  cbn [fold_right]. intros [->|Hin]; [lia|]. specialize (IH Hin). lia.
Qed.

Lemma nesting_descendant (n c : Node) :
  In c (descendants n) -> nesting c < nesting n.
Proof.
  induction n as [e cs IH|d|d] using Node_tree_ind; try (intros []).
  cbn [descendants]. intros Hin.
  apply in_flat_map in Hin as (x & Hx & [<-|Hin]).
  - now apply nesting_child.
  - rewrite Forall_forall in IH. specialize (IH x Hx Hin).
    pose proof (nesting_child e cs x Hx). lia.
Qed.

Lemma querySelectorAll_descendant (sel : Selector) (n c : Node) :
  In c (querySelectorAll sel n) -> In c (descendants n) /\ matches sel c = true.
Proof. unfold querySelectorAll. apply filter_In. Qed.

(** [getTextContent] returns its text when the stack allows more
    nested calls than the tree has levels. *)
Lemma getTextContentC_within (n : Node) :
  forall fuel,
    within (getTextContentC fuel n) (getTextContent n) (fuel <= nesting n).
Proof.
  induction n as [e cs IH|d|d] using Node_tree_ind; intros fuel;
    (destruct fuel as [|f]; [right; split; [reflexivity|lia]|]);
    try (left; reflexivity).
  cbn [getTextContentC getTextContent isText childNodesOf].
  eapply within_bind; [|apply within_returned].
  apply forOfC_within. intros child Hin text.
  rewrite Forall_forall in IH. specialize (IH child Hin f).
  pose proof (nesting_child e cs child Hin) as Hlt.
  destruct child as [e' ks|d|d]; cbn [isText isElement]; try (now left).
  cbn [tagNameOf toLowerCaseOf bind lowerTag].
  destruct (includes textSkippedTags (toLowerCase (tagName e'))); cbn [negb];
    [now left|].
  eapply within_bind; [|apply within_returned].
  eapply within_weaken; [|exact IH]. lia.
Qed.

(** [convertTable] returns its text on an element when the stack
    allows. *)
Lemma convertTableC_within (e : ElementData) (cs : list Node) :
  forall fuel,
    within (convertTableC fuel (Element e cs)) (convertTable (Element e cs))
           (fuel <= nesting (Element e cs)).
Proof.
  intros fuel. destruct fuel as [|f]; [right; split; [reflexivity|lia]|].
  unfold convertTableC, convertTable.
  cbn [querySelectorAllOf querySelectorOf bind].
  destruct (List.length (querySelectorAll (SelType "tr") (Element e cs)) =? 0);
    [now left|].
  unfold forEachC, forEach. apply forEachFromC_within.
  intros row Hrow markdown rowIndex.
  apply querySelectorAll_descendant in Hrow as (Hrow & Hm).
  apply nesting_descendant in Hrow.
  destruct row as [e' ks|d|d]; try discriminate.
  cbn [querySelectorAllOf bind].
  eapply within_bind; [|apply within_returned].
  apply mapC_within. intros cell Hcell.
  apply querySelectorAll_descendant in Hcell as (Hcell & _).
  apply nesting_descendant in Hcell.
  eapply within_weaken; [|apply getTextContentC_within]. lia.
Qed.

(** A rule that wraps the flat text of the element. *)
Lemma text_rule (f : nat) (n : Node) (wrap : string -> string) (short : Prop) :
  (f <= nesting n -> short) ->
  within (text <- getTextContentC f n ;; Returned (wrap text))
         (wrap (getTextContent n)) short.
Proof.
  intros Hs. eapply within_bind; [|apply within_returned].
  eapply within_weaken; [exact Hs|apply getTextContentC_within].
Qed.

(** [htmlToMarkdown] returns its text when the stack allows three more
    nested calls than the tree has levels; with a shorter stack it
    returns the same text or runs out of stack. *)
Lemma htmlToMarkdownC_within (n : Node) :
  forall fuel parent,
    within (htmlToMarkdownC fuel parent n) (htmlToMarkdown parent n)
           (fuel < nesting n + 3).
Proof.
  induction n as [e cs IH|d|d] using Node_tree_ind; intros fuel parent;
    (destruct fuel as [|f]; [right; split; [reflexivity|lia]|]);
    try (left; reflexivity).
  cbn [htmlToMarkdownC htmlToMarkdown tagNameOf lowerTag isText].
  set (el := Element e cs) in *.
  set (t := toLowerCase (tagName e)).
  assert (Hshort : f <= nesting el -> S f < nesting el + 3) by lia.
  destruct (includes skippedTags t); [now left|].
  destruct (t =? "h1")%string;
    [exact (text_rule f el (fun x => nl ++ "# " ++ x ++ nl ++ nl) _ Hshort)|].
  destruct (t =? "h2")%string;
    [exact (text_rule f el (fun x => nl ++ "## " ++ x ++ nl ++ nl) _ Hshort)|].
  destruct (t =? "h3")%string;
    [exact (text_rule f el (fun x => nl ++ "### " ++ x ++ nl ++ nl) _ Hshort)|].
  destruct (t =? "h4")%string;
    [exact (text_rule f el (fun x => nl ++ "#### " ++ x ++ nl ++ nl) _ Hshort)|].
  destruct (t =? "h5")%string;
    [exact (text_rule f el (fun x => nl ++ "##### " ++ x ++ nl ++ nl) _ Hshort)|].
  destruct (t =? "h6")%string;
    [exact (text_rule f el (fun x => nl ++ "###### " ++ x ++ nl ++ nl) _ Hshort)|].
  destruct (t =? "p")%string;
    [exact (text_rule f el (fun x => x ++ nl ++ nl) _ Hshort)|].
  destruct (t =? "br")%string; [now left|].
  destruct (t =? "hr")%string; [now left|].
  destruct ((t =? "strong")%string || (t =? "b")%string);
    [exact (text_rule f el (fun x => "**" ++ x ++ "**") _ Hshort)|].
  destruct ((t =? "em")%string || (t =? "i")%string);
    [exact (text_rule f el (fun x => "*" ++ x ++ "*") _ Hshort)|].
  destruct (t =? "code")%string.
  { destruct parent as [parentTag|]; cbn [inPre];
      [destruct (toLowerCase parentTag =? "pre")%string; [now left|]|];
      exact (text_rule f el (fun x => "`" ++ x ++ "`") _ Hshort). }
  destruct (t =? "pre")%string; [now left|].
  destruct (t =? "a")%string.
  { subst el. cbn [getAttributeOf bind].
    exact (text_rule f (Element e cs)
             (fun x => "[" ++ x ++ "](" ++
                       orEmpty (getAttribute (Element e cs) "href") ++ ")")
             _ Hshort). }
  destruct (t =? "img")%string; [now left|].
  destruct ((t =? "ul")%string || (t =? "ol")%string).
  { subst el. cbn [childrenOf bind].
    eapply within_bind; [|apply within_returned].
    unfold forEachC, forEach. apply forEachFromC_within.
    intros li Hli markdown index.
    apply filter_In in Hli as (Hli & Hel). cbn [childNodesOf] in Hli.
    pose proof (nesting_child e cs li Hli) as Hlt.
    destruct li as [e' ks|d|d]; try discriminate.
    cbn [tagNameOf toLowerCaseOf bind lowerTag].
    destruct (toLowerCase (tagName e') =? "li")%string; [|now left].
    apply (text_rule f (Element e' ks)
             (fun x => markdown ++
                       (if (t =? "ol")%string
                        then ofNat (index + 1) ++ ". " else "- ") ++ x ++ nl)).
    lia. }
  destruct (t =? "li")%string; [now left|].
  destruct (t =? "blockquote")%string;
    [exact (text_rule f el
              (fun x => join nl (map (fun line => "> " ++ line) (split LF x))
                        ++ nl ++ nl) _ Hshort)|].
  destruct (t =? "table")%string.
  { eapply within_bind; [|apply within_returned].
    eapply within_weaken; [|apply convertTableC_within]. exact Hshort. }
  subst el. cbn [childNodesOf].
  apply forOfC_within. intros child Hin markdown.
  rewrite Forall_forall in IH.
  pose proof (nesting_child e cs child Hin) as Hlt.
  eapply within_bind; [|apply within_returned].
  eapply within_weaken; [|apply (IH child Hin)]. lia.
Qed.

(** With a stack of one call the nested [div] cannot be rendered; with
    a stack of five calls it is. *)
Example nested_divs_stack :
  htmlToMarkdownC 1 None Fixtures.nestedDivs = Thrown RangeError /\
  htmlToMarkdownC 5 None Fixtures.nestedDivs = Returned "x ".
Proof. split; vm_compute; reflexivity. Qed.

(** C9.  For every finite tree the renderer terminates and returns a
    string: with a call stack that allows three more nested calls than
    the tree has levels, [htmlToMarkdown] returns, for every node and
    every tag, its Markdown text; no node makes it throw a
    [TypeError], whatever the stack (it returns its text or runs out
    of stack); and an element whose tag has no rule of its own returns
    the renderings of its child nodes, one after the other. *)
Theorem htmlToMarkdown_returns :
  (forall fuel parent element,
      nesting element + 3 <= fuel ->
      htmlToMarkdownC fuel parent element
      = Returned (htmlToMarkdown parent element)) /\
  (forall fuel parent element,
      htmlToMarkdownC fuel parent element
      = Returned (htmlToMarkdown parent element) \/
      htmlToMarkdownC fuel parent element = Thrown RangeError) /\
  (forall fuel parent e cs,
      nesting (Element e cs) + 3 <= fuel ->
      includes ruleTags (toLowerCase (tagName e)) = false ->
      htmlToMarkdownC fuel parent (Element e cs)
      = Returned (concatAll (map (htmlToMarkdown (Some (tagName e))) cs))).
Proof.
  assert (Hret : forall fuel parent element,
             nesting element + 3 <= fuel ->
             htmlToMarkdownC fuel parent element
             = Returned (htmlToMarkdown parent element)).
  { intros fuel parent element Hfuel.
    destruct (htmlToMarkdownC_within element fuel parent) as [H|(_ & Hs)];
      [exact H|lia]. }
  split; [exact Hret|]. split.
  - intros fuel parent element.
    destruct (htmlToMarkdownC_within element fuel parent) as [H|(H & _)]; auto.
  - intros fuel parent e cs Hfuel Htag.
    rewrite (Hret _ _ _ Hfuel). f_equal.
    now apply htmlToMarkdown_container.
Qed.

(** A [span] in a stack of four calls. *)
Lemma htmlToMarkdown_returns_witness :
  nesting Fixtures.spanElement + 3 <= 4 /\
  includes ruleTags (lowerTag Fixtures.spanElement) = false /\
  htmlToMarkdownC 4 None Fixtures.spanElement
  = Returned (concatAll (map (htmlToMarkdown (Some "SPAN")) [Text "x"])).
Proof.
  split; [apply Nat.leb_le; reflexivity|].
  split; [reflexivity|].
  apply (proj2 (proj2 htmlToMarkdown_returns) 4 None
           (Fixtures.plainData "SPAN") [Text "x"]).
  - apply Nat.leb_le. reflexivity.
  - reflexivity.
Defined.

End RendererReturns.
